(** * The Yelp reviews scraper: extraction, filtering and aggregation core

    A shallow embedding of [src/extractors/utils_filters.py] and of the
    review pipeline of [src/extractors/yelp_parser.py], followed by the
    properties the specification states about them.

    Modelling conventions.
    - A Python [str] is a Rocq [string]; the character classes below are the
      ones Python applies to ASCII text, so the model speaks about ASCII
      documents.
    - A Python [dict] with string keys is a [gmap string _]; iteration order
      is not observed by any function modelled here.
    - A Python exception is a value of [exn]; code that may raise returns in
      the error monad [Exc].
    - The parsed page ([bs4]) is a tree of tags and text strings.
    - [dateutil], the HTTP fetch, the HTML parser and the business-level
      field strategies are collaborators of the code under study; they are
      the fields of the class [Externals]. *)

From Stdlib Require Import ZArith NArith String Ascii List Bool Lia DecimalString.
From Stdlib Require Import Floats.PrimFloat Floats.SpecFloat Floats.FloatOps.
From stdpp Require Import gmap strings list fin_maps.

Set Warnings "-register-all".
Open Scope Z_scope.

(** ** Python strings *)

Module Str.

Definition ord (c : ascii) : N := N_of_ascii c.

Definition between (lo hi : N) (c : ascii) : bool :=
  ((lo <=? ord c) && (ord c <=? hi))%N.

(** [str.isdigit], [str.isalpha], [str.isspace] and the regex classes [\d],
    [\s], [\w] on ASCII characters.  Python counts the separators 28..31 as
    white space, for [str.strip] and for [\s] alike. *)
Definition isdigit (c : ascii) : bool := between 48 57 c.
Definition isupper (c : ascii) : bool := between 65 90 c.
Definition islower (c : ascii) : bool := between 97 122 c.
Definition isalpha (c : ascii) : bool := isupper c || islower c.
Definition isspace (c : ascii) : bool := between 9 13 c || between 28 32 c.
Definition isword (c : ascii) : bool := isalpha c || isdigit c || (ord c =? 95)%N.

Definition lower_char (c : ascii) : ascii :=
  if isupper c then ascii_of_N (ord c + 32) else c.

Definition is_empty (s : string) : bool :=
  match s with EmptyString => true | String _ _ => false end.

(** Truth value of a string: [bool(s)]. *)
Definition truthy (s : string) : bool := negb (is_empty s).

Fixpoint lstrip_by (space : ascii -> bool) (s : string) : string :=
  match s with
  | EmptyString => EmptyString
  | String c s' => if space c then lstrip_by space s' else s
  end.

Fixpoint rstrip_by (space : ascii -> bool) (s : string) : string :=
  match s with
  | EmptyString => EmptyString
  | String c s' =>
      let r := rstrip_by space s' in
      if space c && is_empty r then EmptyString else String c r
  end.

(** [s.strip()] *)
Definition strip (s : string) : string := rstrip_by isspace (lstrip_by isspace s).

(** [s.split()]: the maximal runs of non-space characters. *)
Fixpoint split (s : string) : list string :=
  match s with
  | EmptyString => []
  | String c s' =>
      if isspace c then split s'
      else match s' with
           | EmptyString => [String c EmptyString]
           | String c' _ =>
               if isspace c' then String c EmptyString :: split s'
               else match split s' with
                    | w :: ws => String c w :: ws
                    | [] => [String c EmptyString]
                    end
           end
  end.

(** [sep.join(parts)] *)
Fixpoint join (sep : string) (parts : list string) : string :=
  match parts with
  | [] => EmptyString
  | [p] => p
  | p :: ps => p +:+ sep +:+ join sep ps
  end.

(** [s.startswith(p)] *)
Fixpoint startswith (p s : string) : bool :=
  match p, s with
  | EmptyString, _ => true
  | String a p', String b s' => Ascii.eqb a b && startswith p' s'
  | String _ _, EmptyString => false
  end.

(** [p in s] *)
Fixpoint contains (p s : string) : bool :=
  startswith p s ||
  match s with
  | EmptyString => false
  | String _ s' => contains p s'
  end.

(** [any(c.isalpha() for c in s)] *)
Fixpoint any_alpha (s : string) : bool :=
  match s with
  | EmptyString => false
  | String c s' => isalpha c || any_alpha s'
  end.

(** The longest prefix of [s] whose characters satisfy [p], and the rest. *)
Fixpoint span (p : ascii -> bool) (s : string) : string * string :=
  match s with
  | EmptyString => (EmptyString, EmptyString)
  | String c s' =>
      if p c then let '(a, b) := span p s' in (String c a, b)
      else (EmptyString, s)
  end.

Definition digit_value (c : ascii) : Z := Z.of_N (ord c) - 48.

(** The number a string of decimal digits denotes. *)
Definition int_of_digits (s : string) : Z :=
  fold_left (fun acc c => 10 * acc + digit_value c) (list_ascii_of_string s) 0.

(** [str(n)] for an integer, as f-strings render it. *)
Definition decimal (z : Z) : string := NilZero.string_of_int (Z.to_int z).

(** [n] rendered with at least [width] digits, zero padded ([%0wd]), for
    [n >= 0]. *)
Definition zero_padded (width : nat) (z : Z) : string :=
  let d := decimal z in
  string_of_list_ascii (repeat "0"%char (width - String.length d)) +:+ d.

(** *** Regular expressions

    The patterns of the source are matched by the functions below.  A
    matcher is tried at a position of the subject and sees whether the
    character before that position is a word character (for [\b]);
    [search] tries the positions from left to right, as [re.search] does. *)

Definition matcher (A : Type) : Type := bool -> string -> option A.

Fixpoint search_from {A} (m : matcher A) (prev_word : bool) (s : string) : option A :=
  match m prev_word s with
  | Some a => Some a
  | None =>
      match s with
      | EmptyString => None
      | String c s' => search_from m (isword c) s'
      end
  end.

Definition search {A} (m : matcher A) (s : string) : option A :=
  search_from m false s.

(** A literal under [re.I]: the rest of the subject after the literal. *)
Fixpoint match_ci (pat s : string) : option string :=
  match pat, s with
  | EmptyString, _ => Some s
  | String a pat', String b s' =>
      if Ascii.eqb (lower_char a) (lower_char b) then match_ci pat' s' else None
  | String _ _, EmptyString => None
  end.

(** [\b] after a word character: the subject ends or goes on with a
    non-word character. *)
Definition word_ends (s : string) : bool :=
  match s with
  | EmptyString => true
  | String c _ => negb (isword c)
  end.

(** [re.compile(lit, re.I)] for a literal [lit]. *)
Definition re_literal_ci (lit : string) : matcher unit :=
  fun _ s => match match_ci lit s with Some _ => Some tt | None => None end.

(** [(\d+)]: group 1. *)
Definition re_digits : matcher string :=
  fun _ s =>
    let '(d, _) := span isdigit s in
    if is_empty d then None else Some d.

(** [(\d+)\s+word] under [re.I], followed by [s?\b] when [plural] is set:
    group 1.  The greedy runs cannot give back characters: what follows a
    run of digits is not a digit and what follows a run of spaces is not a
    space. *)
Definition re_count (word : string) (plural : bool) : matcher string :=
  fun _ s =>
    let '(d, r) := span isdigit s in
    let '(w, r') := span isspace r in
    if is_empty d || is_empty w then None
    else match match_ci word r' with
         | None => None
         | Some t =>
             if plural then
               let with_s := match match_ci "s" t with
                             | Some t' => word_ends t'
                             | None => false
                             end in
               if with_s || word_ends t then Some d else None
             else Some d
         end.

Definition months : list string :=
  ["Jan"; "Feb"; "Mar"; "Apr"; "May"; "Jun"; "Jul"; "Aug"; "Sep"; "Oct"; "Nov"; "Dec"].

(** [\b(Jan|Feb|...|Dec)\b] under [re.I]. *)
Definition re_month : matcher unit :=
  fun prev_word s =>
    if negb prev_word &&
       existsb (fun mo => match match_ci mo s with
                          | Some t => word_ends t
                          | None => false
                          end) months
    then Some tt else None.

(** [\b20\d{2}\b] *)
Definition re_year : matcher unit :=
  fun prev_word s =>
    match s with
    | String "2" (String "0" (String a (String b t))) =>
        if negb prev_word && isdigit a && isdigit b && word_ends t
        then Some tt else None
    | _ => None
    end.

Definition matches {A} (m : matcher A) (s : string) : bool :=
  match search m s with Some _ => true | None => false end.

End Str.

(** ** Python values, exceptions and dates *)

Module Py.

(** The exception classes the code raises or catches. *)
Inductive exn : Set :=
| TypeError
| ValueError
| OverflowError
| AttributeError
| RequestException.

(** A computation that returns a value or raises. *)
Inductive Exc (A : Type) : Type :=
| Return (a : A)
| Raise (e : exn).
Arguments Return {A} a.
Arguments Raise {A} e.

Definition bind {A B} (c : Exc A) (k : A -> Exc B) : Exc B :=
  match c with
  | Return a => k a
  | Raise e => Raise e
  end.

(** [try: c  except (classes): handler] *)
Definition try_except {A} (c : Exc A) (catches : exn -> bool) (handler : Exc A) : Exc A :=
  match c with
  | Return a => Return a
  | Raise e => if catches e then handler else Raise e
  end.

Definition type_or_value_error (e : exn) : bool :=
  match e with
  | TypeError | ValueError => true
  | _ => false
  end.

Definition value_error (e : exn) : bool :=
  match e with
  | ValueError => true
  | _ => false
  end.

(** *** [datetime.datetime] *)

(** The calendar fields, and [utcoffset()] in seconds: [None] for a naive
    value. *)
Record datetime : Set := mk_datetime {
  year : Z;
  month : Z;
  day : Z;
  hour : Z;
  minute : Z;
  second : Z;
  microsecond : Z;
  utcoffset : option Z
}.

Definition is_leap (y : Z) : bool :=
  (y mod 4 =? 0) && (negb (y mod 100 =? 0) || (y mod 400 =? 0)).

Definition days_before_year (y : Z) : Z :=
  let p := y - 1 in p * 365 + p / 4 - p / 100 + p / 400.

Definition days_before_month (y m : Z) : Z :=
  nth (Z.to_nat (m - 1)) [0; 31; 59; 90; 120; 151; 181; 212; 243; 273; 304; 334] 0
  + (if (2 <? m) && is_leap y then 1 else 0).

(** [toordinal()] *)
Definition toordinal (d : datetime) : Z :=
  days_before_year (year d) + days_before_month (year d) (month d) + day d.

(** Microseconds of the calendar fields since the start of the proleptic
    calendar. *)
Definition wall_clock (d : datetime) : Z :=
  (((toordinal d * 24 + hour d) * 60 + minute d) * 60 + second d) * 1000000
  + microsecond d.

(** [a >= b].  Two naive values compare by their fields, two aware values by
    their instants; comparing a naive with an aware value raises
    [TypeError]. *)
Definition datetime_ge (a b : datetime) : Exc bool :=
  match utcoffset a, utcoffset b with
  | None, None => Return (wall_clock b <=? wall_clock a)
  | Some oa, Some ob =>
      Return (wall_clock b - ob * 1000000 <=? wall_clock a - oa * 1000000)
  | _, _ => Raise TypeError
  end.

(** The textual offset of [isoformat()]: [+HH:MM], with [:SS] when the
    offset has seconds. *)
Definition format_offset (off : Z) : string :=
  let a := Z.abs off in
  let hh := a / 3600 in
  let mm := (a mod 3600) / 60 in
  let ss := a mod 60 in
  (if off <? 0 then "-" else "+")
  +:+ Str.zero_padded 2 hh +:+ ":" +:+ Str.zero_padded 2 mm
  +:+ (if ss =? 0 then "" else ":" +:+ Str.zero_padded 2 ss).

(** [d.isoformat()] *)
Definition isoformat (d : datetime) : string :=
  Str.zero_padded 4 (year d) +:+ "-" +:+ Str.zero_padded 2 (month d)
  +:+ "-" +:+ Str.zero_padded 2 (day d) +:+ "T"
  +:+ Str.zero_padded 2 (hour d) +:+ ":" +:+ Str.zero_padded 2 (minute d)
  +:+ ":" +:+ Str.zero_padded 2 (second d)
  +:+ (if microsecond d =? 0 then "" else "." +:+ Str.zero_padded 6 (microsecond d))
  +:+ match utcoffset d with
      | None => ""
      | Some off => format_offset off
      end.

(** *** [float] *)

(** [num * 2^e] rounded to the nearest integer, ties to even. *)
Definition round_half_even (num e : Z) : Z :=
  if 0 <=? e then num * 2 ^ e
  else
    let den := 2 ^ (- e) in
    let q := num / den in
    let r := num mod den in
    if 2 * r <? den then q
    else if den <? 2 * r then q + 1
    else if Z.even q then q else q + 1.

(** [f"{x:.1f}"] *)
Definition format_1f (x : float) : string :=
  match Prim2SF x with
  | S754_zero s => if s then "-0.0" else "0.0"
  | S754_infinity s => if s then "-inf" else "inf"
  | S754_nan => "nan"
  | S754_finite s m e =>
      let tenths := round_half_even (10 * Zpos m) e in
      (if s then "-" else "")
      +:+ Str.decimal (tenths / 10) +:+ "." +:+ Str.decimal (tenths mod 10)
  end.

(** [int(x)] for a float: truncation; not-a-number and the infinities
    raise. *)
Definition int_of_float (x : float) : Exc Z :=
  match Prim2SF x with
  | S754_zero _ => Return 0
  | S754_infinity _ => Raise OverflowError
  | S754_nan => Raise ValueError
  | S754_finite s m e =>
      let a := if 0 <=? e then Zpos m * 2 ^ e else Zpos m / 2 ^ (- e) in
      Return (if s then - a else a)
  end.

(** *** Values *)

(** The values that settings (read from JSON) and review records hold. *)
Inductive value : Type :=
| VNone
| VBool (b : bool)
| VInt (z : Z)
| VFloat (x : float)
| VStr (s : string)
| VDatetime (d : datetime)
| VList (l : list value)
| VDict (m : gmap string value).

(** [bool(v)] *)
Definition truthy (v : value) : bool :=
  match v with
  | VNone => false
  | VBool b => b
  | VInt z => negb (z =? 0)
  | VFloat x => negb (PrimFloat.eqb x 0%float)
  | VStr s => Str.truthy s
  | VDatetime _ => true
  | VList l => match l with [] => false | _ :: _ => true end
  | VDict m => negb (Nat.eqb (size m) 0)
  end.

(** [isinstance(v, int)], with the integer when it holds; [bool] is a
    subclass of [int]. *)
Definition as_int (v : value) : option Z :=
  match v with
  | VInt z => Some z
  | VBool b => Some (if b then 1 else 0)
  | _ => None
  end.

(** [d.get(key)] *)
Definition get (d : gmap string value) (key : string) : value :=
  default VNone (d !! key).

(** [d.get(key, fallback)] *)
Definition get_or (d : gmap string value) (key : string) (fallback : value) : value :=
  default fallback (d !! key).

(** The digits of an integer literal: digits, single underscores between
    them. *)
Fixpoint literal_digits (after_digit : bool) (s : string) : option string :=
  match s with
  | EmptyString => if after_digit then Some EmptyString else None
  | String c s' =>
      if Str.isdigit c then
        match literal_digits true s' with
        | Some ds => Some (String c ds)
        | None => None
        end
      else if (Str.ord c =? 95)%N && after_digit then
        match s' with
        | String c' _ => if Str.isdigit c' then literal_digits false s' else None
        | EmptyString => None
        end
      else None
  end.

(** [int(digits)]: the interpreter refuses a decimal string longer than
    [sys.get_int_max_str_digits()] (0 switches the limit off). *)
Definition int_of_decimal (max_str_digits : nat) (digits : string) : Exc Z :=
  if negb (Nat.eqb max_str_digits 0) && Nat.ltb max_str_digits (String.length digits)
  then Raise ValueError
  else Return (Str.int_of_digits digits).

(** The white space [int] skips around an ASCII literal: the blank and the
    characters 9..13, without the separators 28..31. *)
Definition literal_space (c : ascii) : bool :=
  Str.between 9 13 c || (Str.ord c =? 32)%N.

(** [int(s)] for a string: surrounding white space, a sign, a decimal
    literal. *)
Definition int_of_str (max_str_digits : nat) (s : string) : Exc Z :=
  let t := Str.rstrip_by literal_space (Str.lstrip_by literal_space s) in
  let '(negative, body) :=
    match t with
    | String "-" r => (true, r)
    | String "+" r => (false, r)
    | _ => (false, t)
    end in
  match literal_digits false body with
  | None => Raise ValueError
  | Some ds =>
      bind (int_of_decimal max_str_digits ds)
           (fun n => Return (if negative then - n else n))
  end.

(** The builtin [int(v)]. *)
Definition int (max_str_digits : nat) (v : value) : Exc Z :=
  match v with
  | VInt z => Return z
  | VBool b => Return (if b then 1 else 0)
  | VFloat x => int_of_float x
  | VStr s => int_of_str max_str_digits s
  | _ => Raise TypeError
  end.

(** [l[:n]] *)
Definition slice_to {A} (l : list A) (n : Z) : list A :=
  if 0 <=? n then take (Z.to_nat n) l
  else take (length l - Z.to_nat (- n)) l.

End Py.

Notation "'let*' x ':=' c 'in' k" := (Py.bind c (fun x => k))
  (at level 10, x name, c at level 100, k at level 200).
Notation "'let*' ' pat ':=' c 'in' k" :=
  (Py.bind c (fun x => match x with pat => k end))
  (at level 10, pat pattern, c at level 100, k at level 200).

Abbreviation dict := (gmap string Py.value).

(** ** The parsed page *)

Module Soup.

(** A node of the tree [BeautifulSoup] builds: a tag with its attributes and
    contents, or a text string.  The root (the [BeautifulSoup] object) is a
    tag as well. *)
Inductive Node : Type :=
| Tag (name : string) (attrs : gmap string string) (contents : list Node)
| NavigableString (text : string).

(** [tag.descendants]: every node below [n], in document order. *)
Fixpoint descendants (n : Node) : list Node :=
  match n with
  | Tag _ _ contents => flat_map (fun c => c :: descendants c) contents
  | NavigableString _ => []
  end.

Definition is_tag (name : string) (n : Node) : bool :=
  match n with
  | Tag name' _ _ => String.eqb name name'
  | NavigableString _ => false
  end.

(** [tag.get(attr)] *)
Definition get (n : Node) (attr : string) : option string :=
  match n with
  | Tag _ attrs _ => attrs !! attr
  | NavigableString _ => None
  end.

Definition has_attr (attr : string) (n : Node) : bool :=
  match get n attr with Some _ => true | None => false end.

(** [tag.find_all(name)] *)
Definition find_all (n : Node) (name : string) : list Node :=
  filter (fun d => is_tag name d = true) (descendants n).

(** [tag.find_all(name, attr=True)] *)
Definition find_all_with_attr (n : Node) (name attr : string) : list Node :=
  filter (fun d => is_tag name d && has_attr attr d = true) (descendants n).

(** [tag.find(name)] *)
Definition find (n : Node) (name : string) : option Node :=
  head (find_all n name).

(** [tag.find(attrs={attr: pattern})]: the first tag below [n] whose
    attribute [attr] is present and searched successfully by [pattern]. *)
Definition find_by_attr {A} (n : Node) (attr : string) (pattern : Str.matcher A)
  : option Node :=
  head (filter (fun d => match get d attr with
                         | Some v => Str.matches pattern v
                         | None => false
                         end = true) (descendants n)).

(** [tag.stripped_strings]: the text strings below [n], stripped, the empty
    ones left out. *)
Definition stripped_strings (n : Node) : list string :=
  flat_map (fun d => match d with
                     | NavigableString text =>
                         let t := Str.strip text in
                         if Str.is_empty t then [] else [t]
                     | Tag _ _ _ => []
                     end) (descendants n).

(** [tag.get_text(sep, strip=True)] *)
Definition get_text (sep : string) (n : Node) : string :=
  Str.join sep (stripped_strings n).

(** [soup.select("[attr]")] *)
Definition select_has_attr (n : Node) (attr : string) : list Node :=
  filter (fun d => has_attr attr d = true) (descendants n).

(** [soup.select("name[attr*='part']")] *)
Definition select_attr_contains (n : Node) (name attr part : string) : list Node :=
  filter (fun d => is_tag name d &&
                   match get d attr with
                   | Some v => Str.contains part v
                   | None => false
                   end = true) (descendants n).

End Soup.

Import Py Soup.

(** ** Collaborators *)

(** The business record, as the dataclass of the source has it. *)
Record BusinessInfo : Type := mk_BusinessInfo {
  business_url : string;
  business_name : option string;
  average_rating : option float;
  total_reviews_text : option string;
  price_range : option string;
  business_address : option string;
  contact_number : option string
}.

(** What the code under study calls and does not define, and the business
    field strategies, which none of the properties below looks into: each
    returns its field or raises. *)
Class Externals : Type := {
  (** [dateutil.parser.parse] *)
  date_parser_parse : string -> Exc datetime;
  (** [str(v)] for a value that is no string, integer or boolean *)
  str_of_other : value -> string;
  (** [sys.get_int_max_str_digits()] *)
  max_str_digits : nat;
  (** [_fetch_html(url)] followed by [BeautifulSoup(html, "lxml")] *)
  fetch_soup : string -> Exc Node;
  _extract_business_name : Node -> Exc (option string);
  _extract_average_rating : Node -> Exc (option float);
  _extract_total_reviews_text : Node -> Exc (option string);
  _extract_price_range : Node -> Exc (option string);
  _extract_business_address : Node -> Exc (option string);
  _extract_phone_number : Node -> Exc (option string)
}.

(** ** [utils_filters.py] *)

Record ReviewFilters : Set := mk_ReviewFilters {
  min_rating : option Z;
  max_rating : option Z;
  from_date : option datetime
}.

Section Filters.
Context `{Externals}.

(** The re-raising handler of the source leaves the exception as it is. *)
Definition parse_review_date (text : string) : Exc datetime :=
  date_parser_parse text.

(** [str(v)] *)
Definition str (v : value) : string :=
  match v with
  | VStr s => s
  | VInt z => Str.decimal z
  | VBool b => if b then "True" else "False"
  | other => str_of_other other
  end.

(** A rating bound of the settings: [None] stays, anything else goes
    through [int], and a [TypeError] or [ValueError] unsets the bound. *)
Definition rating_bound (raw : value) : Exc (option Z) :=
  match raw with
  | VNone => Return None
  | _ =>
      try_except (let* n := int max_str_digits raw in Return (Some n))
                 type_or_value_error
                 (Return None)
  end.

Definition from_settings (settings : dict) : Exc ReviewFilters :=
  let min_rating := Py.get settings "min_rating" in
  let max_rating := Py.get settings "max_rating" in
  let from_date_raw := Py.get settings "from_date" in
  let* min_rating := rating_bound min_rating in
  let* max_rating := rating_bound max_rating in
  let from_date :=
    if truthy from_date_raw then
      match parse_review_date (str from_date_raw) with
      | Return d => Some d
      | Raise _ => None
      end
    else None in
  Return (mk_ReviewFilters min_rating max_rating from_date).

Definition _passes_rating_filter (review : dict) (filters : ReviewFilters) : bool :=
  match as_int (Py.get review "latest_reviewer_rating") with
  | None =>
      match min_rating filters, max_rating filters with
      | None, None => true
      | _, _ => false
      end
  | Some rating =>
      if match min_rating filters with
         | Some lo => rating <? lo
         | None => false
         end then false
      else if match max_rating filters with
              | Some hi => hi <? rating
              | None => false
              end then false
      else true
  end.

Definition _ensure_datetime (v : value) : Exc datetime :=
  match v with
  | VDatetime d => Return d
  | VStr s => parse_review_date s
  | _ => Raise TypeError
  end.

(** The handler around [_ensure_datetime] catches every exception; the
    comparison stands after it, outside the [try]. *)
Definition _passes_date_filter (review : dict) (filters : ReviewFilters) : Exc bool :=
  match from_date filters with
  | None => Return true
  | Some bound =>
      let date_raw := Py.get review "review_date" in
      if negb (truthy date_raw) then Return false
      else match _ensure_datetime date_raw with
           | Raise _ => Return false
           | Return review_dt => datetime_ge review_dt bound
           end
  end.

Fixpoint apply_filters (reviews : list dict) (filters : ReviewFilters)
  : Exc (list dict) :=
  match reviews with
  | [] => Return []
  | review :: rest =>
      if negb (_passes_rating_filter review filters) then apply_filters rest filters
      else
        let* keep := _passes_date_filter review filters in
        let* result := apply_filters rest filters in
        Return (if keep then review :: result else result)
  end.

End Filters.

(** ** [yelp_parser.py]: the review strategies *)

(** [for x in xs: ... return v]: the value of the first element that
    returns one. *)
Fixpoint first_some {A B} (f : A -> option B) (xs : list A) : option B :=
  match xs with
  | [] => None
  | x :: xs' =>
      match f x with
      | Some b => Some b
      | None => first_some f xs'
      end
  end.

(** [xs.sort(key=len)]: a stable sort by length.  The elements are inserted
    from the last to the first, each in front of the elements that are not
    shorter, so equal lengths keep their order. *)
Fixpoint insert_by_len (x : string) (sorted : list string) : list string :=
  match sorted with
  | [] => [x]
  | y :: ys =>
      if (String.length x <=? String.length y)%nat then x :: sorted
      else y :: insert_by_len x ys
  end.

Definition sort_by_len (xs : list string) : list string :=
  foldr (fun x sorted => insert_by_len x sorted) [] xs.

Definition opt_str (o : option string) : value :=
  match o with Some s => VStr s | None => VNone end.

Definition opt_int (o : option Z) : value :=
  match o with Some z => VInt z | None => VNone end.

Section Parser.
Context `{Externals}.

Definition _extract_reviewer_name (container : Node) : option string :=
  match first_some
          (fun link =>
             if Str.contains "/user_details?" (default "" (Soup.get link "href")) then
               let text := get_text "" link in
               if Str.truthy text then Some text else None
             else None)
          (find_all_with_attr container "a" "href") with
  | Some text => Some text
  | None =>
      match find container "strong" with
      | Some strong =>
          if Str.truthy (get_text "" strong) then Some (get_text "" strong) else None
      | None => None
      end
  end.

Definition _extract_avatar_url (container : Node) : option string :=
  match find container "img" with
  | Some img =>
      match Soup.get img "src" with
      | Some src => if Str.truthy src then Some src else None
      | None => None
      end
  | None => None
  end.

(** [int(match.group(1))] inside [try ... except ValueError], with the
    value the handler leaves. *)
Definition group_int_or {A} (group : string) (ok : Z -> A) (otherwise : A) : Exc A :=
  try_except (let* n := int_of_str max_str_digits group in Return (ok n))
             value_error
             (Return otherwise).

(** One counter scanned in the text: the pattern's number, or [start] when
    the pattern does not match or the number does not convert. *)
Definition scan_count (pattern : Str.matcher string) (text : string) (start : Z) : Exc Z :=
  match Str.search pattern text with
  | Some group => group_int_or group (fun n => n) start
  | None => Return start
  end.

Definition _extract_reviewer_details (container : Node) : Exc dict :=
  let details_text := Str.join " " (stripped_strings container) in
  let* total_reviews := scan_count (Str.re_count "review" true) details_text 0 in
  let* total_friends := scan_count (Str.re_count "friend" true) details_text 0 in
  let* photos := scan_count (Str.re_count "photo" true) details_text 0 in
  Return (list_to_map [("total_reviews", VInt total_reviews);
                       ("total_friends", VInt total_friends);
                       ("business_photos_uploaded", VInt photos)]).

Definition _extract_reviewer_location (container : Node) : option string :=
  let candidates :=
    filter (fun text => Str.contains "," text && Str.any_alpha text = true)
           (map (get_text "") (find_all container "span")) in
  head (sort_by_len candidates).

Definition _extract_reviewer_rating (container : Node) : Exc (option Z) :=
  match find_by_attr container "aria-label" (Str.re_literal_ci "star rating") with
  | Some rating_el =>
      let label := default "" (Soup.get rating_el "aria-label") in
      match Str.search Str.re_digits label with
      | Some group => group_int_or group Some None
      | None => Return None
      end
  | None => Return None
  end.

Definition _extract_review_date_raw (container : Node) : option string :=
  match first_some (fun time_el =>
                      let text := get_text "" time_el in
                      if Str.truthy text then Some text else None)
                   (find_all container "time") with
  | Some text => Some text
  | None =>
      first_some (fun span =>
                    let text := get_text "" span in
                    if Str.matches Str.re_month text || Str.matches Str.re_year text
                    then Some text else None)
                 (find_all container "span")
  end.

(** The paragraphs of more than three words, joined by a space. *)
Definition long_paragraphs (block : Node) : option string :=
  let paragraphs :=
    filter (fun text => (3 <? length (Str.split text))%nat = true)
           (map (get_text " ") (find_all block "p")) in
  match paragraphs with
  | [] => None
  | _ :: _ => Some (Str.join " " paragraphs)
  end.

Definition _extract_review_text (container : Node) : option string :=
  long_paragraphs container.

(** [if src and ... and src not in urls: urls.append(src)] *)
Definition append_new (wanted : string -> bool) (urls : list string) (src : option string)
  : list string :=
  match src with
  | Some src =>
      if Str.truthy src && wanted src && negb (bool_decide (src ∈ urls))
      then urls ++ [src] else urls
  | None => urls
  end.

Definition _extract_review_media_urls (container : Node) : list string :=
  let urls :=
    foldl (fun urls img => append_new (Str.contains "yelp") urls (Soup.get img "src"))
          [] (find_all container "img") in
  foldl (fun urls video =>
           foldl (fun urls source => append_new (fun _ => true) urls (Soup.get source "src"))
                 urls (find_all video "source"))
        urls (find_all container "video").

Definition _extract_reaction_counts (container : Node) : Exc (Z * Z * Z * Z) :=
  let text := Str.join " " (stripped_strings container) in
  let* helpful := scan_count (Str.re_count "Helpful" false) text 0 in
  let* thanks := scan_count (Str.re_count "Thanks" false) text 0 in
  let* love_this := scan_count (Str.re_count "Love this" false) text 0 in
  let* oh_no := scan_count (Str.re_count "Oh no" false) text 0 in
  Return (helpful, thanks, love_this, oh_no).

Definition _extract_business_response (container : Node)
  : Exc (option string * option string * option string) :=
  let response_block :=
    head (filter (fun div =>
                    Str.matches (Str.re_literal_ci "Business Owner") (get_text " " div)
                    || Str.matches (Str.re_literal_ci "Owner") (get_text " " div) = true)
                 (find_all container "div")) in
  match response_block with
  | None => Return (None, None, None)
  | Some response_block =>
      let author_name :=
        match find response_block "strong" with
        | Some strong =>
            if Str.truthy (get_text "" strong) then Some (get_text "" strong) else None
        | None => None
        end in
      let response_date_raw :=
        match first_some (fun time_el =>
                            let text := get_text "" time_el in
                            if Str.truthy text then Some text else None)
                         (find_all response_block "time") with
        | Some text => Some text
        | None =>
            first_some (fun span =>
                          let text := get_text "" span in
                          if Str.matches Str.re_month text then Some text else None)
                       (find_all response_block "span")
        end in
      let* response_date_iso :=
        match response_date_raw with
        | Some raw => let* d := parse_review_date raw in Return (Some (isoformat d))
        | None => Return None
        end in
      let response_content := long_paragraphs response_block in
      Return (author_name, response_date_iso, response_content)
  end.

Definition _parse_single_review (container : Node) : Exc dict :=
  let reviewer_name := _extract_reviewer_name container in
  let avatar_url := _extract_avatar_url container in
  let* reviewer_details := _extract_reviewer_details container in
  let reviewer_location := _extract_reviewer_location container in
  let* reviewer_rating := _extract_reviewer_rating container in
  let review_date_raw := _extract_review_date_raw container in
  let* review_date_iso :=
    match review_date_raw with
    | Some raw => let* d := parse_review_date raw in Return (Some (isoformat d))
    | None => Return None
    end in
  let review_text := _extract_review_text container in
  let review_media_urls := _extract_review_media_urls container in
  let* '(helpful_count, thanks_count, love_this_count, oh_no_count) :=
    _extract_reaction_counts container in
  let* '(response_author_name, response_date, response_content) :=
    _extract_business_response container in
  Return (list_to_map
    [("latest_reviewer_name", opt_str reviewer_name);
     ("review_avatar_url", opt_str avatar_url);
     ("latest_reviewer_details", VDict reviewer_details);
     ("latest_reviewer_location", opt_str reviewer_location);
     ("latest_reviewer_rating", opt_int reviewer_rating);
     ("review_date", opt_str review_date_iso);
     ("review_text", opt_str review_text);
     ("review_media_urls", VList (map VStr review_media_urls));
     ("helpful_count", VInt helpful_count);
     ("thanks_count", VInt thanks_count);
     ("love_this_count", VInt love_this_count);
     ("oh_no_count", VInt oh_no_count);
     ("response_author_name", opt_str response_author_name);
     ("response_date", opt_str response_date);
     ("response_content", opt_str response_content)]).

(** ** [yelp_parser.py]: the page pipeline *)

Definition _parse_business_info (soup : Node) (url : string) : Exc BusinessInfo :=
  let* business_name := _extract_business_name soup in
  let* avg_rating := _extract_average_rating soup in
  let* total_reviews_text := _extract_total_reviews_text soup in
  let* price_range := _extract_price_range soup in
  let* address := _extract_business_address soup in
  let* phone := _extract_phone_number soup in
  Return (mk_BusinessInfo url business_name avg_rating total_reviews_text
                          price_range address phone).

Definition _locate_review_containers (soup : Node) : list Node :=
  match select_has_attr soup "data-review-id" with
  | (_ :: _) as containers => containers
  | [] =>
      match select_attr_contains soup "li" "class" "review" with
      | (_ :: _) as containers => containers
      | [] =>
          filter (fun section =>
                    match find_by_attr section "aria-label" (Str.re_literal_ci "star rating") with
                    | Some _ => true
                    | None => false
                    end = true)
                 (find_all soup "section")
      end
  end.

(** The loop of [_parse_reviews]: a container whose extraction raises is
    left out and the loop goes on. *)
Definition parse_containers (containers : list Node) : list dict :=
  foldl (fun (reviews : list dict) container =>
           match _parse_single_review container with
           | Raise _ => reviews
           | Return review => reviews ++ [review]
           end)
        [] containers.

Definition _parse_reviews (soup : Node) : list dict :=
  let containers := _locate_review_containers soup in
  parse_containers containers.

(** [f"{stars}stars"] *)
Definition stars_key (stars : Z) : string := Str.decimal stars +:+ "stars".

(** The [Counter] of the ratings that are integers in 1..5. *)
Definition rating_counter (reviews : list dict) : gmap Z Z :=
  foldl (fun (counter : gmap Z Z) r =>
           match as_int (Py.get r "latest_reviewer_rating") with
           | Some rating =>
               if (1 <=? rating) && (rating <=? 5)
               then <[rating := default 0 (counter !! rating) + 1]> counter
               else counter
           | None => counter
           end)
        ∅ reviews.

Definition _build_rating_histogram (reviews : list dict) : dict :=
  let counter := rating_counter reviews in
  list_to_map (map (fun stars => (stars_key stars, VInt (default 0 (counter !! stars))))
                   (seqZ 1 5)).

(** One output record: the business fields and the histogram, updated with
    the review's own fields. *)
Definition output_record (business : BusinessInfo) (review_counts_by_rating : dict)
    (review : dict) : dict :=
  let record : dict :=
    list_to_map
      [("business_url", VStr (business_url business));
       ("business_name", opt_str (business_name business));
       ("average_rating", match average_rating business with
                          | Some x => VStr (format_1f x)
                          | None => VNone
                          end);
       ("total_reviews", opt_str (total_reviews_text business));
       ("price_range", opt_str (price_range business));
       ("business_address", opt_str (business_address business));
       ("contact_number", opt_str (contact_number business));
       ("review_counts_by_rating", VDict review_counts_by_rating)] in
  review ∪ record.

Definition parse_business_page (scraper_settings : dict) (url : string)
  : Exc (list dict) :=
  let* soup := fetch_soup url in
  let* business := _parse_business_info soup url in
  let reviews := _parse_reviews soup in
  let* max_reviews := int max_str_digits (get_or scraper_settings "max_reviews" (VInt 200)) in
  let reviews := slice_to reviews max_reviews in
  let* filters := from_settings scraper_settings in
  let* reviews := apply_filters reviews filters in
  let review_counts_by_rating := _build_rating_histogram reviews in
  Return (map (output_record business review_counts_by_rating) reviews).

End Parser.

(** ** Sample collaborators, pages and settings *)

Module Sample.

Definition text (s : string) : Node := NavigableString s.

Definition el (name : string) (attrs : list (string * string)) (contents : list Node) : Node :=
  Tag name (list_to_map attrs) contents.

Definition naive (y m d : Z) : datetime := mk_datetime y m d 0 0 0 0 None.
Definition utc (y m d : Z) : datetime := mk_datetime y m d 0 0 0 0 (Some 0).

(** What [dateutil.parser.parse] returns on the date strings of the sample
    pages; it raises [ParserError], a [ValueError], on the other texts used
    there. *)
Definition dates : list (string * datetime) :=
  [("Jan 5, 2024", naive 2024 1 5);
   ("2024-01-05T00:00:00", naive 2024 1 5);
   ("Dec 24, 2023", naive 2023 12 24);
   ("2023-12-24T00:00:00", naive 2023 12 24);
   ("2024-01-01", naive 2024 1 1);
   ("2024-01-05T00:00:00Z", utc 2024 1 5);
   ("2024-01-05T00:00:00+00:00", utc 2024 1 5)].

(** The entry of a table under a key. *)
Fixpoint assoc {A} (key : string) (table : list (string * A)) : option A :=
  match table with
  | [] => None
  | (k, a) :: table' => if String.eqb key k then Some a else assoc key table'
  end.

Definition parse_date (s : string) : Exc datetime :=
  match assoc s dates with
  | Some d => Return d
  | None => Raise ValueError
  end.

(** A review container with a star label and, when given, a [time]
    element. *)
Definition review_block (id : string) (label : string) (date : option string) : Node :=
  el "div" [("data-review-id", id)]
     ([el "a" [("href", "/user_details?userid=" +:+ id)] [text "Ann B."];
       el "div" [("aria-label", label)] [];
       el "p" [] [text "Great tacos and very friendly staff."]]
      ++ match date with
         | Some d => [el "time" [] [text d]]
         | None => []
         end).

(** 250 synthetic reviews; review [i] has rating [i mod 5 + 1]. *)
Definition synthetic_review (i : Z) : Node :=
  review_block (Str.decimal i) (Str.decimal (i mod 5 + 1) +:+ " star rating") None.

Definition page_250 : Node :=
  el "[document]" [] [el "body" [] (map synthetic_review (seqZ 0 250))].

(** Three reviews; the date of the second is no date. *)
Definition page_three : Node :=
  el "[document]" []
     [el "body" []
         [review_block "a" "5 star rating" (Some "Jan 5, 2024");
          review_block "b" "4 star rating" (Some "sometime last week");
          review_block "c" "2 star rating" (Some "Dec 24, 2023")]].

(** The same page without its second review. *)
Definition page_two : Node :=
  el "[document]" []
     [el "body" []
         [review_block "a" "5 star rating" (Some "Jan 5, 2024");
          review_block "c" "2 star rating" (Some "Dec 24, 2023")]].

(** One review dated with a UTC designator. *)
Definition page_utc : Node :=
  el "[document]" []
     [el "body" [] [review_block "z" "5 star rating" (Some "2024-01-05T00:00:00Z")]].

(** A star label that reads ten. *)
Definition ten_stars : Node := review_block "t" "10 star rating" None.

(** A video in front of a picture. *)
Definition video_first : Node :=
  el "div" [("data-review-id", "v")]
     [el "video" [] [el "source" [("src", "https://media.example/clip.mp4")] []];
      el "img" [("src", "https://s3.yelpcdn.com/photo.jpg")] []].

Definition url_synthetic : string := "https://www.yelp.com/biz/synthetic".
Definition url_three : string := "https://www.yelp.com/biz/three".
Definition url_two : string := "https://www.yelp.com/biz/two".
Definition url_utc : string := "https://www.yelp.com/biz/utc".

Definition pages : list (string * Node) :=
  [(url_synthetic, page_250);
   (url_three, page_three);
   (url_two, page_two);
   (url_utc, page_utc)].

Definition externals : Externals := {|
  date_parser_parse := parse_date;
  str_of_other := fun _ => "";
  max_str_digits := 4300%nat;
  fetch_soup := fun url =>
    match assoc url pages with
    | Some soup => Return soup
    | None => Raise RequestException
    end;
  _extract_business_name := fun _ => Return (Some "Taco Stand");
  _extract_average_rating := fun _ => Return (Some 4.25%float);
  _extract_total_reviews_text := fun _ => Return (Some "128 reviews");
  _extract_price_range := fun _ => Return (Some "$$");
  _extract_business_address := fun _ => Return (Some "1 Main St Austin TX 78701");
  _extract_phone_number := fun _ => Return (Some "(512) 555-0100")
|}.

(** The business record the sample strategies give for [url]. *)
Definition business (url : string) : BusinessInfo :=
  mk_BusinessInfo url (Some "Taco Stand") (Some 4.25%float) (Some "128 reviews")
                  (Some "$$") (Some "1 Main St Austin TX 78701") (Some "(512) 555-0100").

Definition settings (entries : list (string * value)) : dict := list_to_map entries.

Definition settings_empty : dict := settings [].
Definition settings_200_min_4 : dict :=
  settings [("max_reviews", VInt 200); ("min_rating", VInt 4)].
Definition settings_negative : dict := settings [("max_reviews", VInt (-1))].
Definition settings_min_3 : dict := settings [("min_rating", VInt 3)].
Definition settings_from_2024 : dict := settings [("from_date", VStr "2024-01-01")].

(** A review without a rating, and one rated ten. *)
Definition unrated : dict := {[ "latest_reviewer_rating" := VNone ]}.
Definition rated_ten : dict := {[ "latest_reviewer_rating" := VInt 10 ]}.

(** A review dated with an offset, as a text and as a value. *)
Definition dated_utc : dict := {[ "review_date" := VStr "2024-01-05T00:00:00+00:00" ]}.
Definition dated_aware : dict := {[ "review_date" := VDatetime (utc 2024 1 5) ]}.

End Sample.

(** ** Vocabulary of the properties *)

(** The rating of a review when it is an integer. *)
Definition known_rating (review : dict) : option Z :=
  as_int (Py.get review "latest_reviewer_rating").

Definition in_star_range (n : Z) : bool := (1 <=? n) && (n <=? 5).

(** The review has a known rating in 1..5. *)
Definition rated_in_range (review : dict) : bool :=
  match known_rating review with
  | Some n => in_star_range n
  | None => false
  end.

(** The review has the known rating [stars]. *)
Definition rated (stars : Z) (review : dict) : bool :=
  match known_rating review with
  | Some n => n =? stars
  | None => false
  end.

(** The count a histogram holds for [stars]. *)
Definition bucket (histogram : dict) (stars : Z) : Z :=
  match histogram !! stars_key stars with
  | Some (VInt n) => n
  | _ => 0
  end.

(** The sum of the five bucket counts. *)
Definition bucket_sum (histogram : dict) : Z :=
  foldr Z.add 0 (map (bucket histogram) (seqZ 1 5)).

(** The number of elements of [l] that satisfy [p]. *)
Definition count {A} (p : A -> bool) (l : list A) : Z :=
  Z.of_nat (length (filter (fun x => p x = true) l)).

(** The keys of a review record. *)
Definition review_fields : list string :=
  ["latest_reviewer_name"; "review_avatar_url"; "latest_reviewer_details";
   "latest_reviewer_location"; "latest_reviewer_rating"; "review_date";
   "review_text"; "review_media_urls"; "helpful_count"; "thanks_count";
   "love_this_count"; "oh_no_count"; "response_author_name"; "response_date";
   "response_content"].

(** The keys an output record takes from the business record and the
    histogram. *)
Definition business_fields : list string :=
  ["business_url"; "business_name"; "average_rating"; "total_reviews";
   "price_range"; "business_address"; "contact_number"; "review_counts_by_rating"].

Definition opt_float (o : option float) : value :=
  match o with Some x => VFloat x | None => VNone end.

(** The average rating as an output record shows it. *)
Definition rendered_rating (o : option float) : value :=
  match o with Some x => VStr (format_1f x) | None => VNone end.

(** The business-level fields of [record], the average rating apart, equal
    the fields of [business]. *)
Definition carries_business (business : BusinessInfo) (record : dict) : Prop :=
  record !! "business_url" = Some (VStr (business_url business)) /\
  record !! "business_name" = Some (opt_str (business_name business)) /\
  record !! "total_reviews" = Some (opt_str (total_reviews_text business)) /\
  record !! "price_range" = Some (opt_str (price_range business)) /\
  record !! "business_address" = Some (opt_str (business_address business)) /\
  record !! "contact_number" = Some (opt_str (contact_number business)).

Section Vocabulary.
Context `{Externals}.

(** The review passes both rules of the filter. *)
Definition passes_filters (filters : ReviewFilters) (review : dict) : bool :=
  _passes_rating_filter review filters
  && match _passes_date_filter review filters with
     | Return keep => keep
     | Raise _ => false
     end.

End Vocabulary.

(** A source attribute that is present, not empty and [wanted]. *)
Definition qualified (wanted : string -> bool) (src : option string) : option string :=
  match src with
  | Some s => if Str.truthy s && wanted s then Some s else None
  | None => None
  end.

(** The sources of the pictures of a container that carry the vendor
    marker, in document order. *)
Definition image_sources (container : Node) : list string :=
  omap (fun img => qualified (Str.contains "yelp") (Soup.get img "src"))
       (find_all container "img").

(** The sources of the videos of a container, in document order. *)
Definition video_sources (container : Node) : list string :=
  omap (fun source => qualified (fun _ => true) (Soup.get source "src"))
       (flat_map (fun video => find_all video "source") (find_all container "video")).

(** Each element once, at its first occurrence. *)
Fixpoint first_occurrences (l : list string) : list string :=
  match l with
  | [] => []
  | x :: l' => x :: filter (fun y => y <> x) (first_occurrences l')
  end.

(** The media sources below a node in the order of the document, pictures
    and videos taken together as they come. *)
Fixpoint media_in_document_order (in_video : bool) (n : Node) : list string :=
  match n with
  | NavigableString _ => []
  | Tag name attrs contents =>
      (if String.eqb name "img"
       then option_list (qualified (Str.contains "yelp") (attrs !! "src"))
       else if String.eqb name "source" && in_video
            then option_list (qualified (fun _ => true) (attrs !! "src"))
            else [])
      ++ flat_map (media_in_document_order (in_video || String.eqb name "video")) contents
  end.

Definition document_order_media (container : Node) : list string :=
  match container with
  | Tag _ _ contents => flat_map (media_in_document_order false) contents
  | NavigableString _ => []
  end.

(** A string of decimal digits. *)
Definition all_digits (s : string) : bool :=
  forallb Str.isdigit (list_ascii_of_string s).

(** The reviews the specification cuts the raw list to: the first
    [max_reviews] of them. *)
Definition first_reviews (max_reviews : Z) (reviews : list dict) : list dict :=
  take (Z.to_nat max_reviews) reviews.

(** The review has a known rating of at least [bound]. *)
Definition rated_at_least (bound : Z) (review : dict) : bool :=
  match known_rating review with
  | Some n => bound <=? n
  | None => false
  end.

(** A rating field as the specification has it: absent, or an integer in
    1..5. *)
Definition absent_or_in_star_range (v : value) : Prop :=
  v = VNone \/ exists n, v = VInt n /\ 1 <= n <= 5.

(** Both values are naive or both are aware. *)
Definition same_awareness (a b : datetime) : bool :=
  match utcoffset a, utcoffset b with
  | None, None | Some _, Some _ => true
  | _, _ => false
  end.

(** The instant of a value, in microseconds; a naive value is read as it
    stands. *)
Definition instant (d : datetime) : Z :=
  wall_clock d - default 0 (utcoffset d) * 1000000.

(** [d] is on or after [bound]. *)
Definition on_or_after (d bound : datetime) : bool := instant bound <=? instant d.

(** The computation raised. *)
Definition raised {A} (c : Exc A) : bool :=
  match c with
  | Return _ => false
  | Raise _ => true
  end.

(** What a computation returned, if it did. *)
Definition returned {A} (c : Exc A) : option A :=
  match c with
  | Return a => Some a
  | Raise _ => None
  end.

(** The field [key] of the first record a page returned. *)
Definition first_field (key : string) (c : Exc (list dict)) : option value :=
  match returned c with
  | Some (record :: _) => record !! key
  | _ => None
  end.

(** The label of the star rating of a container: the [aria-label] of the
    first element whose label reads "star rating". *)
Definition star_label (container : Node) : option string :=
  match find_by_attr container "aria-label" (Str.re_literal_ci "star rating") with
  | Some rating_el => Some (default "" (Soup.get rating_el "aria-label"))
  | None => None
  end.

(** The first run of digits of a string: from its first digit to the
    character in front of the next character that is no digit. *)
Fixpoint first_digit_run (s : string) : option string :=
  match s with
  | EmptyString => None
  | String c s' =>
      if Str.isdigit c then Some (fst (Str.span Str.isdigit s))
      else first_digit_run s'
  end.

(** The number a run of digits denotes, for an interpreter that converts
    at most [limit] digits (0: any number of them). *)
Definition number_of_run (limit : nat) (run : string) : option Z :=
  if negb (Nat.eqb limit 0) && Nat.ltb limit (String.length run) then None
  else Some (Str.int_of_digits run).

(** The rating a star label denotes: the number of its first run of
    digits. *)
Definition label_rating (limit : nat) (container : Node) : option Z :=
  match star_label container with
  | Some label =>
      match first_digit_run label with
      | Some run => number_of_run limit run
      | None => None
      end
  | None => None
  end.
(** ** [yelp_parser.py]: business strategies over the text of the page *)

Module Business.

(** [soup.find_all(string=pattern)]: the text strings below [n] that the
    pattern accepts, in document order. *)
Definition find_all_strings (n : Node) (accepts : string -> bool) : list string :=
  flat_map (fun d => match d with
                     | NavigableString text => if accepts text then [text] else []
                     | Tag _ _ _ => []
                     end) (descendants n).

(** [\breviews?\b] under [re.I]. *)
Definition re_reviews : Str.matcher unit :=
  fun prev_word s =>
    match Str.match_ci "review" s with
    | Some t =>
        let with_s := match Str.match_ci "s" t with
                      | Some t' => Str.word_ends t'
                      | None => false
                      end in
        if negb prev_word && (with_s || Str.word_ends t) then Some tt else None
    | None => None
    end.

Definition is_dollar (c : ascii) : bool := (Str.ord c =? 36)%N.

Definition line_feed : string := String (ascii_of_N 10) EmptyString.

(** [re.compile(r"^\$+$").search(s)]: dollar signs from the start of the
    string to its end, or to a line feed that ends it. *)
Definition only_dollars (s : string) : bool :=
  let '(d, r) := Str.span is_dollar s in
  negb (Str.is_empty d) && (Str.is_empty r || String.eqb r line_feed).

Definition _extract_total_reviews_text (soup : Node) : option string :=
  let text_candidates :=
    filter (fun val => Str.matches Str.re_digits val = true)
           (map Str.strip (find_all_strings soup (Str.matches re_reviews))) in
  head (sort_by_len text_candidates).

Definition _extract_price_range (soup : Node) : option string :=
  first_some (fun el =>
                let val := Str.strip el in
                if (1 <=? String.length val)%nat && (String.length val <=? 4)%nat
                then Some val else None)
             (find_all_strings soup only_dollars).

End Business.

(** ** [runner.py] *)

Module Runner.

(** The [scraper] section of the settings [load_settings] falls back to
    when no settings file can be read. *)
Definition default_scraper_settings : dict :=
  list_to_map [("max_reviews", VInt 200);
               ("min_rating", VInt 1);
               ("max_rating", VInt 5);
               ("from_date", VNone)].

(** What opening and reading the input file gives: its lines, an
    [OSError], or another exception (a file that is not UTF-8 makes the
    reading raise [UnicodeDecodeError], a [ValueError]). *)
Inductive Read : Type :=
| ReadLines (lines : list string)
| ReadOSError
| ReadRaises (e : exn).

(** [except OSError]: the exception of [requests] is an [OSError]. *)
Definition os_error (e : exn) : bool :=
  match e with
  | RequestException => true
  | _ => false
  end.

(** [load_input_urls], given whether the input file exists and what
    reading it gives. *)
Definition load_input_urls (file_exists : bool) (read : Read) : Exc (list string) :=
  if negb file_exists then Return []
  else match read with
       | ReadOSError => Return []
       | ReadRaises e => if os_error e then Return [] else Raise e
       | ReadLines lines =>
           Return (foldl (fun (urls : list string) line =>
                            let line := Str.strip line in
                            if negb (Str.truthy line) || Str.startswith "#" line then urls
                            else urls ++ [line])
                         [] lines)
       end.

Section Main.
Context `{Externals}.

(** The loop of [main] over the URLs, for a parser built with the settings
    [scraper_settings]: the records of a page that raises are left out,
    those of the other pages are appended. *)
Definition collect_records (scraper_settings : dict) (urls : list string) : list dict :=
  foldl (fun (all_records : list dict) url =>
           match parse_business_page scraper_settings url with
           | Raise _ => all_records
           | Return records =>
               match records with
               | [] => all_records
               | _ :: _ => all_records ++ records
               end
           end)
        [] urls.

End Main.

End Runner.

(** ** Further vocabulary *)

(** The block [_extract_business_response] takes for the owner's
    response. *)
Definition response_block (container : Node) : option Node :=
  head (filter (fun div =>
                  Str.matches (Str.re_literal_ci "Business Owner") (get_text " " div)
                  || Str.matches (Str.re_literal_ci "Owner") (get_text " " div) = true)
               (find_all container "div")).

(** The date text [_extract_business_response] finds in that block. *)
Definition response_date_raw (block : Node) : option string :=
  match first_some (fun time_el =>
                      let text := get_text "" time_el in
                      if Str.truthy text then Some text else None)
                   (find_all block "time") with
  | Some text => Some text
  | None =>
      first_some (fun span =>
                    let text := get_text "" span in
                    if Str.matches Str.re_month text then Some text else None)
                 (find_all block "span")
  end.

(** The texts [_extract_reviewer_location] chooses from. *)
Definition location_candidates (container : Node) : list string :=
  filter (fun text => Str.contains "," text && Str.any_alpha text = true)
         (map (get_text "") (find_all container "span")).

(** [m] stands in [l] in front of everything as short as itself and is
    nowhere longer than an element of [l]: what a stable sort by length
    puts first. *)
Definition first_shortest (m : string) (l : list string) : Prop :=
  exists l1 l2,
    l = l1 ++ m :: l2 /\
    Forall (fun y => (String.length m < String.length y)%nat) l1 /\
    Forall (fun y => (String.length m <= String.length y)%nat) l2.

(** An infinite float. *)
Definition infinite_float (v : value) : bool :=
  match v with
  | VFloat x => match Prim2SF x with
                | S754_infinity _ => true
                | _ => false
                end
  | _ => false
  end.

(** A rating bound as [from_settings] reads it from a raw setting. *)
Definition bound_of (limit : nat) (raw : value) : option Z :=
  match raw with
  | VNone => None
  | _ => returned (int limit raw)
  end.

(** [length (l[:n])] *)
Definition slice_length (len : nat) (n : Z) : nat :=
  if 0 <=? n then Nat.min (Z.to_nat n) len else (len - Z.to_nat (- n))%nat.

(** A string of dollar signs. *)
Definition all_dollars (s : string) : bool :=
  forallb Business.is_dollar (list_ascii_of_string s).

(** The texts [_extract_total_reviews_text] chooses from. *)
Definition total_reviews_candidates (soup : Node) : list string :=
  filter (fun val => Str.matches Str.re_digits val = true)
         (map Str.strip (Business.find_all_strings soup (Str.matches Business.re_reviews))).

(** The reviews the rating rule keeps. *)
Definition kept_by_rating (filters : ReviewFilters) (reviews : list dict) : list dict :=
  filter (fun r => _passes_rating_filter r filters = true) reviews.

(** ** Further sample pages *)

Module Fixture.

Import Sample.

(** A review with a location, counters and an answer of the owner. *)
Definition answered_review : Node :=
  el "div" [("data-review-id", "r")]
     [el "a" [("href", "/user_details?userid=r")] [text "Ann B."];
      el "span" [] [text "Travis Heights, Austin, TX"];
      el "span" [] [text "Austin, TX"];
      el "span" [] [text "12 friends"];
      el "span" [] [text "340 reviews"];
      el "div" [("aria-label", "4 star rating")] [];
      el "time" [] [text "Dec 24, 2023"];
      el "p" [] [text "Great tacos and very friendly staff."];
      el "span" [] [text "3 Helpful"];
      el "div" []
         [el "strong" [] [text "Maria, Business Owner"];
          el "time" [] [text "Jan 5, 2024"];
          el "p" [] [text "Thank you for the kind words."]]].

(** The head of a business page: prices and counts of reviews. *)
Definition header : Node :=
  el "div" []
     [el "h1" [] [text "Taco Stand"];
      el "span" [] [text "$$$$$"];
      el "span" [] [text ("$$" +:+ Business.line_feed)];
      el "span" [] [text "$"];
      el "p" [] [text "Read all 128 reviews of Taco Stand"];
      el "a" [] [text " 128 reviews "];
      el "a" [] [text "12  Reviews"];
      el "span" [] [text "Reviews"]].

(** A page whose only review is dated with a text that is no date. *)
Definition page_undated : Node :=
  el "[document]" []
     [el "body" [] [header; review_block "u" "3 star rating" (Some "sometime last week")]].

(** A page with the answered review and a second one. *)
Definition page_answered : Node :=
  el "[document]" []
     [el "body" []
         [header; answered_review; review_block "c" "2 star rating" (Some "Dec 24, 2023")]].

Definition url_undated : string := "https://www.yelp.com/biz/undated".
Definition url_answered : string := "https://www.yelp.com/biz/answered".
Definition url_missing : string := "https://www.yelp.com/biz/missing".

Definition pages : list (string * Node) :=
  [(url_undated, page_undated); (url_answered, page_answered)] ++ Sample.pages.

(** The sample collaborators, with the two business strategies over the
    text of the page in the place of the constant ones. *)
Definition externals : Externals := {|
  date_parser_parse := parse_date;
  str_of_other := fun _ => "";
  max_str_digits := 4300%nat;
  fetch_soup := fun url =>
    match assoc url pages with
    | Some soup => Return soup
    | None => Raise RequestException
    end;
  _extract_business_name := fun _ => Return (Some "Taco Stand");
  _extract_average_rating := fun _ => Return (Some 4.25%float);
  _extract_total_reviews_text := fun soup => Return (Business._extract_total_reviews_text soup);
  _extract_price_range := fun soup => Return (Business._extract_price_range soup);
  _extract_business_address := fun _ => Return (Some "1 Main St Austin TX 78701");
  _extract_phone_number := fun _ => Return (Some "(512) 555-0100")
|}.

(** The business record these strategies give for the pages above. *)
Definition business (url : string) : BusinessInfo :=
  mk_BusinessInfo url (Some "Taco Stand") (Some 4.25%float) (Some "128 reviews")
                  (Some "$$") (Some "1 Main St Austin TX 78701") (Some "(512) 555-0100").

Definition settings_from_unparseable : dict :=
  settings [("from_date", VStr "sometime last week")].

Definition filters_min_3 : ReviewFilters := mk_ReviewFilters (Some 3) None None.
Definition filters_4_to_2 : ReviewFilters := mk_ReviewFilters (Some 4) (Some 2) None.

End Fixture.
(** ** Properties *)

Section Properties.
Context `{Externals}.

Lemma bind_Return_inv {A B} (c : Exc A) (k : A -> Exc B) (b : B) :
  bind c k = Return b -> exists a, c = Return a /\ k a = Return b.
Proof. destruct c as [a|e]; simpl; [eauto | discriminate]. Qed.

Lemma seqZ_1_5 : seqZ 1 5 = [1; 2; 3; 4; 5].
Proof. reflexivity. Qed.

Lemma count_cons {A} (p : A -> bool) (x : A) (l : list A) :
  count p (x :: l) = (if p x then 1 else 0) + count p l.
Proof.
  unfold count. rewrite filter_cons.
  destruct (p x) eqn:E; case_decide; try congruence; simpl length; lia.
Qed.

Lemma count_le_length {A} (p : A -> bool) (l : list A) : count p l <= Z.of_nat (length l).
Proof. unfold count. pose proof (length_filter (fun x => p x = true) l). lia. Qed.

Lemma count_eq_length {A} (p : A -> bool) (l : list A) :
  count p l = Z.of_nat (length l) <-> Forall (fun x => p x = true) l.
Proof.
  induction l as [|x l IH].
  - split; [constructor | reflexivity].
  - rewrite count_cons. pose proof (count_le_length p l) as Hle.
    simpl length. split.
    + intros Heq. destruct (p x) eqn:E.
      * constructor; [exact E | apply IH; lia].
      * lia.
    + intros Hall. inversion Hall as [|? ? Hx Hl]; subst.
      rewrite Hx. apply IH in Hl. lia.
Qed.

(** The counter after the loop holds, for each star value of 1..5, the
    number of reviews rated with it, and nothing else. *)
Lemma rating_counter_step (reviews : list dict) (counter : gmap Z Z) (stars : Z) :
  default 0 (foldl (fun (counter : gmap Z Z) r =>
           match as_int (Py.get r "latest_reviewer_rating") with
           | Some rating =>
               if (1 <=? rating) && (rating <=? 5)
               then <[rating := default 0 (counter !! rating) + 1]> counter
               else counter
           | None => counter
           end) counter reviews !! stars)
  = default 0 (counter !! stars)
    + (if in_star_range stars then count (rated stars) reviews else 0).
Proof.
  revert counter. induction reviews as [|r reviews IH]; intros counter.
  - simpl. unfold count. simpl. destruct (in_star_range stars); lia.
  - simpl foldl. rewrite IH. rewrite count_cons. unfold rated at 2, known_rating.
    destruct (as_int (Py.get r "latest_reviewer_rating")) as [n|] eqn:En.
    + fold (in_star_range n). destruct (in_star_range n) eqn:Rn.
      * destruct (decide (n = stars)) as [->|Hne].
        -- rewrite lookup_insert_eq. simpl. rewrite Rn, Z.eqb_refl. lia.
        -- rewrite lookup_insert_ne by done.
           assert ((n =? stars) = false) as -> by lia.
           destruct (in_star_range stars); lia.
      * destruct (in_star_range stars) eqn:Rs; [|lia].
        assert ((n =? stars) = false) as ->; [|lia].
        apply Z.eqb_neq. intros ->. congruence.
    + destruct (in_star_range stars); lia.
Qed.

Lemma rating_counter_lookup (reviews : list dict) (stars : Z) :
  default 0 (rating_counter reviews !! stars)
  = if in_star_range stars then count (rated stars) reviews else 0.
Proof.
  unfold rating_counter. rewrite rating_counter_step. rewrite lookup_empty. simpl. lia.
Qed.

Lemma histogram_lookup (reviews : list dict) (stars : Z) :
  1 <= stars <= 5 ->
  _build_rating_histogram reviews !! stars_key stars
  = Some (VInt (count (rated stars) reviews)).
Proof.
  intros Hs. unfold _build_rating_histogram. rewrite seqZ_1_5.
  assert (stars = 1 \/ stars = 2 \/ stars = 3 \/ stars = 4 \/ stars = 5) as Hc by lia.
  cbn [map list_to_map foldr curry fst snd uncurry].
  rewrite !rating_counter_lookup.
  change (stars_key 1) with "1stars". change (stars_key 2) with "2stars".
  change (stars_key 3) with "3stars". change (stars_key 4) with "4stars".
  change (stars_key 5) with "5stars".
  destruct Hc as [-> | [-> | [-> | [-> | ->]]]];
    [change (stars_key 1) with "1stars" | change (stars_key 2) with "2stars"
    | change (stars_key 3) with "3stars" | change (stars_key 4) with "4stars"
    | change (stars_key 5) with "5stars"];
    repeat (rewrite lookup_insert_ne by discriminate); rewrite lookup_insert_eq; reflexivity.
Qed.

Lemma rated_sum (r : dict) :
  (if rated 1 r then 1 else 0) + ((if rated 2 r then 1 else 0)
   + ((if rated 3 r then 1 else 0) + ((if rated 4 r then 1 else 0)
   + ((if rated 5 r then 1 else 0) + 0))))
  = if rated_in_range r then 1 else 0.
Proof.
  unfold rated, rated_in_range, in_star_range.
  destruct (known_rating r) as [n|]; [|reflexivity].
  repeat match goal with
         | |- context [?a =? ?b] => destruct (Z.eqb_spec a b)
         | |- context [?a <=? ?b] => destruct (Z.leb_spec a b)
         end; simpl; lia.
Qed.

Lemma bucket_sum_count (reviews : list dict) :
  bucket_sum (_build_rating_histogram reviews) = count rated_in_range reviews.
Proof.
  unfold bucket_sum, bucket. rewrite seqZ_1_5. cbn [map foldr].
  rewrite !histogram_lookup by lia.
  induction reviews as [|r reviews IH].
  - reflexivity.
  - rewrite !count_cons. rewrite <- rated_sum. lia.
Qed.


(** *** The error monad *)

Ltac exc_inv H :=
  cbv zeta in H;
  repeat (apply bind_Return_inv in H;
          let a := fresh "a" in
          let Ha := fresh "Ha" in
          destruct H as (a & Ha & H);
          cbv beta in H;
          repeat match type of H with
                 | context [match a with pair _ _ => _ end] =>
                     destruct a as [a ?]; cbv beta iota in H
                 end).

(** *** The loop over the containers *)

Lemma parse_containers_acc (containers : list Node) (acc : list dict) :
  foldl (fun (reviews : list dict) container =>
           match _parse_single_review container with
           | Raise _ => reviews
           | Return review => reviews ++ [review]
           end) acc containers
  = acc ++ parse_containers containers.
Proof.
  unfold parse_containers. revert acc.
  induction containers as [|c cs IH]; intros acc; simpl.
  - by rewrite app_nil_r.
  - rewrite IH. rewrite (IH (match _ with Return _ => _ | Raise _ => _ end)).
    destruct (_parse_single_review c); simpl; [by rewrite <- app_assoc | done].
Qed.

Lemma parse_containers_cons (c : Node) (cs : list Node) :
  parse_containers (c :: cs)
  = match _parse_single_review c with
    | Return review => review :: parse_containers cs
    | Raise _ => parse_containers cs
    end.
Proof.
  unfold parse_containers at 1. simpl. rewrite parse_containers_acc.
  by destruct (_parse_single_review c).
Qed.

Lemma parse_containers_app (before after : list Node) :
  parse_containers (before ++ after)
  = parse_containers before ++ parse_containers after.
Proof.
  induction before as [|c cs IH]; [done|].
  rewrite <- app_comm_cons, !parse_containers_cons, IH.
  by destruct (_parse_single_review c).
Qed.

Lemma parse_containers_extracted (containers : list Node) :
  Forall (fun review => exists c, c ∈ containers /\ _parse_single_review c = Return review)
         (parse_containers containers).
Proof.
  induction containers as [|c cs IH]; [constructor|].
  rewrite parse_containers_cons.
  assert (Forall (fun review => exists c0, c0 ∈ c :: cs /\ _parse_single_review c0 = Return review)
                 (parse_containers cs)) as IH'.
  { eapply Forall_impl; [exact IH|]. intros r (c0 & Hin & Hc0). exists c0. split; [by right|done]. }
  destruct (_parse_single_review c) as [r|e] eqn:E; [|exact IH'].
  constructor; [|exact IH']. exists c. split; [by left|done].
Qed.

(** *** The field strategies that convert numbers never raise *)

Lemma int_of_str_raises (limit : nat) (s : string) (e : exn) :
  int_of_str limit s = Raise e -> e = ValueError.
Proof.
  unfold int_of_str, int_of_decimal.
  destruct (match Str.rstrip_by literal_space (Str.lstrip_by literal_space s) with
            | String "-" r => (true, r)
            | String "+" r => (false, r)
            | _ => (false, Str.rstrip_by literal_space (Str.lstrip_by literal_space s))
            end) as [negative body].
  destruct (literal_digits false body); [|congruence].
  destruct (_ && _); simpl; congruence.
Qed.

Lemma group_int_or_returns {A} (group : string) (ok : Z -> A) (otherwise : A) :
  group_int_or group ok otherwise = Return otherwise \/
  exists n, int_of_str max_str_digits group = Return n /\
            group_int_or group ok otherwise = Return (ok n).
Proof.
  unfold group_int_or.
  destruct (int_of_str max_str_digits group) as [n|e] eqn:E; simpl.
  - right. by exists n.
  - left. by rewrite (int_of_str_raises _ _ _ E).
Qed.

Lemma scan_count_returns (pattern : Str.matcher string) (text : string) (start : Z) :
  exists n, scan_count pattern text start = Return n.
Proof.
  unfold scan_count. destruct (Str.search pattern text) as [group|]; [|by eexists].
  destruct (group_int_or_returns group (fun n => n) start) as [->|(n & _ & ->)]; by eexists.
Qed.

Lemma extract_reviewer_details_returns (container : Node) :
  exists details, _extract_reviewer_details container = Return details.
Proof.
  unfold _extract_reviewer_details. cbv zeta.
  destruct (scan_count_returns (Str.re_count "review" true)
              (Str.join " " (stripped_strings container)) 0) as [a ->].
  destruct (scan_count_returns (Str.re_count "friend" true)
              (Str.join " " (stripped_strings container)) 0) as [b ->].
  destruct (scan_count_returns (Str.re_count "photo" true)
              (Str.join " " (stripped_strings container)) 0) as [c ->].
  by eexists.
Qed.

Lemma extract_reviewer_rating_returns (container : Node) :
  exists rating, _extract_reviewer_rating container = Return rating.
Proof.
  unfold _extract_reviewer_rating.
  destruct (find_by_attr _ _ _) as [rating_el|]; [|by eexists].
  cbv zeta. destruct (Str.search _ _) as [group|]; [|by eexists].
  destruct (group_int_or_returns group Some None) as [->|(n & _ & ->)]; by eexists.
Qed.

Lemma extract_reaction_counts_returns (container : Node) :
  exists counts, _extract_reaction_counts container = Return counts.
Proof.
  unfold _extract_reaction_counts. cbv zeta.
  destruct (scan_count_returns (Str.re_count "Helpful" false)
              (Str.join " " (stripped_strings container)) 0) as [a ->].
  destruct (scan_count_returns (Str.re_count "Thanks" false)
              (Str.join " " (stripped_strings container)) 0) as [b ->].
  destruct (scan_count_returns (Str.re_count "Love this" false)
              (Str.join " " (stripped_strings container)) 0) as [c ->].
  destruct (scan_count_returns (Str.re_count "Oh no" false)
              (Str.join " " (stripped_strings container)) 0) as [d ->].
  by eexists.
Qed.

(** A review date that is present and does not parse makes the extraction
    of its container raise. *)
Lemma unparseable_date_raises (container : Node) (raw : string) (e : exn) :
  _extract_review_date_raw container = Some raw ->
  parse_review_date raw = Raise e ->
  _parse_single_review container = Raise e.
Proof.
  intros Hraw Hparse. unfold _parse_single_review. cbv zeta.
  destruct (extract_reviewer_details_returns container) as [details ->].
  destruct (extract_reviewer_rating_returns container) as [rating ->].
  simpl. rewrite Hraw. simpl. by rewrite Hparse.
Qed.

(** *** The fields of a review record *)

Lemma parse_single_review_fields (container : Node) (review : dict) :
  _parse_single_review container = Return review ->
  dom review = list_to_set review_fields.
Proof.
  intros Hr. unfold _parse_single_review in Hr. exc_inv Hr.
  injection Hr as <-. rewrite !dom_insert_L, dom_empty_L. reflexivity.
Qed.

Lemma parse_single_review_rating (container : Node) (review : dict) :
  _parse_single_review container = Return review ->
  exists rating, _extract_reviewer_rating container = Return rating /\
                 review !! "latest_reviewer_rating" = Some (opt_int rating).
Proof.
  intros Hr. unfold _parse_single_review in Hr. exc_inv Hr.
  injection Hr as <-. eexists. split; [eassumption|]. reflexivity.
Qed.

(** *** The filter *)

Lemma apply_filters_cons (review : dict) (rest : list dict) (filters : ReviewFilters) :
  apply_filters (review :: rest) filters
  = if negb (_passes_rating_filter review filters) then apply_filters rest filters
    else let* keep := _passes_date_filter review filters in
         let* result := apply_filters rest filters in
         Return (if keep then review :: result else result).
Proof. reflexivity. Qed.

(** What the filter returns is the list of the reviews that pass both
    rules, in their order. *)
Lemma apply_filters_kept (reviews kept : list dict) (filters : ReviewFilters) :
  apply_filters reviews filters = Return kept ->
  kept = filter (fun r => passes_filters filters r = true) reviews.
Proof.
  revert kept. induction reviews as [|r rs IH]; intros kept Hk.
  - by injection Hk as <-.
  - rewrite apply_filters_cons in Hk.
    destruct (_passes_rating_filter r filters) eqn:Er; simpl in Hk.
    + exc_inv Hk. injection Hk as <-.
      destruct a.
      * rewrite filter_cons_True by (unfold passes_filters; by rewrite Er, Ha).
        by rewrite <- (IH _ Ha0).
      * rewrite filter_cons_False by (unfold passes_filters; by rewrite Er, Ha).
        by rewrite <- (IH _ Ha0).
    + rewrite filter_cons_False by (unfold passes_filters; by rewrite Er).
      by apply IH.
Qed.

Lemma apply_filters_sublist (reviews kept : list dict) (filters : ReviewFilters) :
  apply_filters reviews filters = Return kept -> sublist kept reviews.
Proof.
  intros Hk. rewrite (apply_filters_kept _ _ _ Hk). apply sublist_filter.
Qed.

(** Without a date bound the filter always returns, and keeps by rating
    alone. *)
Lemma apply_filters_no_date (reviews : list dict) (filters : ReviewFilters) :
  from_date filters = None ->
  apply_filters reviews filters
  = Return (filter (fun r => _passes_rating_filter r filters = true) reviews).
Proof.
  intros Hd. induction reviews as [|r rs IH]; [done|].
  rewrite apply_filters_cons, IH. unfold _passes_date_filter. rewrite Hd.
  destruct (_passes_rating_filter r filters) eqn:Er; simpl.
  - by rewrite filter_cons_True.
  - rewrite filter_cons_False; [done | by rewrite Er].
Qed.

(** The date rule, case by case. *)
Lemma passes_date_filter_unset (review : dict) (filters : ReviewFilters) :
  from_date filters = None -> _passes_date_filter review filters = Return true.
Proof. intros Hd. unfold _passes_date_filter. by rewrite Hd. Qed.

Lemma passes_date_filter_lacking (review : dict) (filters : ReviewFilters) (bound : datetime) :
  from_date filters = Some bound ->
  truthy (Py.get review "review_date") = false ->
  _passes_date_filter review filters = Return false.
Proof. intros Hd Ht. unfold _passes_date_filter. by rewrite Hd, Ht. Qed.

Lemma passes_date_filter_unparseable (review : dict) (filters : ReviewFilters)
    (bound : datetime) (e : exn) :
  from_date filters = Some bound ->
  _ensure_datetime (Py.get review "review_date") = Raise e ->
  _passes_date_filter review filters = Return false.
Proof.
  intros Hd He. unfold _passes_date_filter. rewrite Hd, He.
  by destruct (negb _).
Qed.

Lemma passes_date_filter_compared (review : dict) (filters : ReviewFilters)
    (bound d : datetime) :
  from_date filters = Some bound ->
  truthy (Py.get review "review_date") = true ->
  _ensure_datetime (Py.get review "review_date") = Return d ->
  _passes_date_filter review filters = datetime_ge d bound.
Proof. intros Hd Ht He. unfold _passes_date_filter. by rewrite Hd, Ht, He. Qed.

(** *** The page pipeline *)

Lemma parse_business_page_eq (settings : dict) (url : string) (soup : Node)
    (business : BusinessInfo) (n : Z) (filters : ReviewFilters) :
  fetch_soup url = Return soup ->
  _parse_business_info soup url = Return business ->
  int max_str_digits (get_or settings "max_reviews" (VInt 200)) = Return n ->
  from_settings settings = Return filters ->
  parse_business_page settings url
  = let* kept := apply_filters (slice_to (_parse_reviews soup) n) filters in
    Return (map (output_record business (_build_rating_histogram kept)) kept).
Proof.
  intros Hs Hb Hn Hf. unfold parse_business_page.
  rewrite Hs. cbn [bind]. rewrite Hb. cbn [bind]. cbv zeta.
  rewrite Hn. cbn [bind]. rewrite Hf. reflexivity.
Qed.

Lemma slice_to_sublist {A} (l : list A) (n : Z) : sublist (slice_to l n) l.
Proof. unfold slice_to. destruct (0 <=? n); apply sublist_take. Qed.

Lemma slice_to_nonneg {A} (l : list A) (n : Z) :
  0 <= n -> slice_to l n = take (Z.to_nat n) l.
Proof. intros Hn. unfold slice_to. by destruct (Z.leb_spec 0 n); [|lia]. Qed.

Lemma Forall_sublist {A} (P : A -> Prop) (l1 l2 : list A) :
  sublist l1 l2 -> Forall P l2 -> Forall P l1.
Proof.
  intros Hsub Hall. rewrite Forall_forall in *.
  intros x Hx. apply Hall. by eapply elem_of_sublist.
Qed.

(** The reviews the filter keeps are records of containers of the page. *)
Lemma kept_reviews_fields (soup : Node) (n : Z) (filters : ReviewFilters) (kept : list dict) :
  apply_filters (slice_to (_parse_reviews soup) n) filters = Return kept ->
  Forall (fun review => dom review = list_to_set review_fields) kept.
Proof.
  intros Hk. apply apply_filters_sublist in Hk.
  assert (sublist kept (_parse_reviews soup)) as Hsub.
  { etrans; [exact Hk | apply slice_to_sublist]. }
  eapply Forall_sublist; [exact Hsub|].
  eapply Forall_impl; [apply parse_containers_extracted|].
  intros r (c & _ & Hc). by eapply parse_single_review_fields.
Qed.

Lemma business_fields_fresh :
  Forall (fun k => k ∉ review_fields) business_fields.
Proof. apply (bool_decide_unpack _). vm_compute. exact I. Qed.

Lemma output_record_lookup (business : BusinessInfo) (histogram review : dict) (k : string) :
  dom review = list_to_set review_fields ->
  k ∈ business_fields ->
  output_record business histogram review !! k
  = (list_to_map
      [("business_url", VStr (business_url business));
       ("business_name", opt_str (business_name business));
       ("average_rating", rendered_rating (average_rating business));
       ("total_reviews", opt_str (total_reviews_text business));
       ("price_range", opt_str (price_range business));
       ("business_address", opt_str (business_address business));
       ("contact_number", opt_str (contact_number business));
       ("review_counts_by_rating", VDict histogram)] : dict) !! k.
Proof.
  intros Hdom Hk. unfold output_record. cbv zeta.
  apply lookup_union_r. apply not_elem_of_dom. rewrite Hdom, elem_of_list_to_set.
  pose proof business_fields_fresh as Hfresh. rewrite Forall_forall in Hfresh.
  by apply Hfresh.
Qed.

Lemma output_record_business (business : BusinessInfo) (histogram review : dict) :
  dom review = list_to_set review_fields ->
  let record := output_record business histogram review in
  carries_business business record /\
  record !! "average_rating" = Some (rendered_rating (average_rating business)) /\
  record !! "review_counts_by_rating" = Some (VDict histogram).
Proof.
  intros Hdom record. unfold carries_business, record.
  rewrite !(output_record_lookup _ _ _ _ Hdom)
    by (apply (bool_decide_unpack _); vm_compute; exact I).
  repeat split; reflexivity.
Qed.

(** *** The media list *)

Lemma filter_all {A} (P : A -> Prop) `{forall x, Decision (P x)} (l : list A) :
  (forall x, x ∈ l -> P x) -> filter P l = l.
Proof.
  induction l as [|x l IH]; intros Hall; [done|].
  rewrite filter_cons_True by (apply Hall; by left).
  f_equal. apply IH. intros y Hy. apply Hall. by right.
Qed.

Lemma first_occurrences_elem_of (l : list string) (x : string) :
  x ∈ first_occurrences l <-> x ∈ l.
Proof.
  induction l as [|y l IH]; [done|]. simpl.
  rewrite !elem_of_cons, list_elem_of_filter, IH.
  destruct (decide (x = y)); tauto.
Qed.

Lemma first_occurrences_NoDup (l : list string) : NoDup (first_occurrences l).
Proof.
  induction l as [|y l IH]; simpl; [constructor|].
  constructor; [|by apply NoDup_filter].
  rewrite list_elem_of_filter. tauto.
Qed.

Lemma first_occurrences_sublist (l : list string) : sublist (first_occurrences l) l.
Proof.
  induction l as [|y l IH]; simpl; [constructor|].
  apply sublist_skip. etrans; [apply sublist_filter | exact IH].
Qed.

(** The loop [if s not in urls: urls.append(s)] lists the first occurrences
    of the qualified sources that are not listed yet. *)
Lemma foldl_append_new {A} (wanted : string -> bool) (g : A -> option string)
    (xs : list A) (acc : list string) :
  foldl (fun urls x => append_new wanted urls (g x)) acc xs
  = acc ++ filter (fun y => y ∉ acc)
                  (first_occurrences (omap (fun x => qualified wanted (g x)) xs)).
Proof.
  revert acc. induction xs as [|x xs IH]; intros acc; simpl.
  - by rewrite app_nil_r.
  - rewrite IH. unfold append_new, qualified.
    destruct (g x) as [s|]; [|done].
    destruct (Str.truthy s && wanted s); [|done]. simpl.
    case_bool_decide as Hin; simpl.
    + rewrite filter_cons_False by tauto.
      f_equal. rewrite list_filter_filter. apply list_filter_iff.
      intros y. split; [|tauto]. intros Hy. split; [done|]. by intros ->.
    + rewrite filter_cons_True by done.
      rewrite <- app_assoc. simpl. do 2 f_equal.
      rewrite list_filter_filter. apply list_filter_iff.
      intros y. rewrite elem_of_app, list_elem_of_singleton. tauto.
Qed.

Lemma foldl_flat_map {A B C} (f : C -> B -> C) (g : A -> list B) (xs : list A) (acc : C) :
  foldl (fun acc x => foldl f acc (g x)) acc xs = foldl f acc (flat_map g xs).
Proof.
  revert acc. induction xs as [|x xs IH]; intros acc; simpl; [done|].
  by rewrite IH, foldl_app.
Qed.

Lemma first_occurrences_app (a b : list string) :
  first_occurrences (a ++ b)
  = first_occurrences a
    ++ filter (fun y => y ∉ first_occurrences a) (first_occurrences b).
Proof.
  induction a as [|x a IH]; simpl.
  - symmetry. apply filter_all. intros y _. apply not_elem_of_nil.
  - f_equal. rewrite IH, filter_app. f_equal.
    rewrite !list_filter_filter. apply list_filter_iff.
    intros y. rewrite not_elem_of_cons, list_elem_of_filter. tauto.
Qed.

Lemma extract_review_media_urls_eq (container : Node) :
  _extract_review_media_urls container
  = first_occurrences (image_sources container ++ video_sources container).
Proof.
  unfold _extract_review_media_urls. cbv zeta.
  rewrite foldl_flat_map.
  rewrite (foldl_append_new (Str.contains "yelp") (fun img => Soup.get img "src")).
  rewrite (foldl_append_new (fun _ => true) (fun source => Soup.get source "src")).
  simpl app at 1.
  rewrite (filter_all (fun y => y ∉ [])) by (intros y _; apply not_elem_of_nil).
  by rewrite first_occurrences_app.
Qed.

(** *** The number of a star label *)

Lemma span_digits_all (s : string) : all_digits (fst (Str.span Str.isdigit s)) = true.
Proof.
  induction s as [|c s IH]; [done|]. simpl.
  destruct (Str.isdigit c) eqn:Ec; [|done].
  destruct (Str.span Str.isdigit s) as [a b]. unfold all_digits in *. simpl in *.
  by rewrite Ec.
Qed.

Lemma search_digits_all (prev_word : bool) (s group : string) :
  Str.search_from Str.re_digits prev_word s = Some group -> all_digits group = true.
Proof.
  revert prev_word. induction s as [|c s IH]; intros prev_word Hs.
  - discriminate.
  - simpl in Hs.
    destruct (Str.re_digits prev_word (String c s)) as [d|] eqn:Ed.
    + injection Hs as <-. unfold Str.re_digits in Ed.
      pose proof (span_digits_all (String c s)) as Hall.
      destruct (Str.span Str.isdigit (String c s)) as [a b].
      destruct (Str.is_empty a); [discriminate|]. by injection Ed as <-.
    + by eapply IH.
Qed.

Lemma lstrip_digits (space : ascii -> bool) (s : string) :
  all_digits s = true -> all_digits (Str.lstrip_by space s) = true.
Proof.
  induction s as [|c s IH]; [done|]. intros Hs. simpl.
  destruct (space c); [|done]. apply IH.
  unfold all_digits in *. simpl in Hs. by apply andb_prop in Hs as [_ ?].
Qed.

Lemma rstrip_digits (space : ascii -> bool) (s : string) :
  all_digits s = true -> all_digits (Str.rstrip_by space s) = true.
Proof.
  induction s as [|c s IH]; [done|]. intros Hs.
  unfold all_digits in Hs. simpl in Hs. apply andb_prop in Hs as [Hc Hs].
  simpl. destruct (space c && Str.is_empty (Str.rstrip_by space s)); [done|].
  unfold all_digits. simpl. rewrite Hc. by apply IH.
Qed.

Lemma literal_digits_all (s : string) (after_digit : bool) (ds : string) :
  literal_digits after_digit s = Some ds -> all_digits ds = true.
Proof.
  revert after_digit ds. induction s as [|c s IH]; intros after_digit ds Hd.
  - simpl in Hd. destruct after_digit; [|discriminate]. by injection Hd as <-.
  - cbn [literal_digits] in Hd. destruct (Str.isdigit c) eqn:Ec.
    + destruct (literal_digits true s) as [ds'|] eqn:El; [|discriminate].
      injection Hd as <-. unfold all_digits. simpl. rewrite Ec. by apply (IH true).
    + destruct ((Str.ord c =? 95)%N && after_digit); [|discriminate].
      destruct s as [|c' s']; [discriminate|].
      destruct (Str.isdigit c'); [|discriminate]. by apply (IH false).
Qed.

Lemma digit_value_nonneg (c : ascii) : Str.isdigit c = true -> 0 <= Str.digit_value c.
Proof.
  unfold Str.isdigit, Str.between, Str.digit_value. intros Hc.
  apply andb_prop in Hc as [Hlo _]. apply N.leb_le in Hlo. lia.
Qed.

Lemma int_of_digits_nonneg (ds : string) : all_digits ds = true -> 0 <= Str.int_of_digits ds.
Proof.
  unfold all_digits, Str.int_of_digits. generalize (list_ascii_of_string ds) as l.
  assert (forall (l : list ascii) (acc : Z),
            forallb Str.isdigit l = true -> 0 <= acc ->
            0 <= fold_left (fun acc c => 10 * acc + Str.digit_value c) l acc) as Hfold.
  { induction l as [|c l IH]; intros acc Hl Hacc; [done|].
    simpl in *. apply andb_prop in Hl as [Hc Hl]. apply IH; [done|].
    pose proof (digit_value_nonneg c Hc). lia. }
  intros l Hl. by apply Hfold.
Qed.

Lemma int_of_str_digits (limit : nat) (group : string) (n : Z) :
  all_digits group = true -> int_of_str limit group = Return n -> 0 <= n.
Proof.
  intros Hg Hn. unfold int_of_str in Hn.
  assert (all_digits (Str.rstrip_by literal_space (Str.lstrip_by literal_space group)) = true)
    as Ht by (by apply rstrip_digits, lstrip_digits).
  destruct (Str.rstrip_by literal_space (Str.lstrip_by literal_space group))
    as [|c t] eqn:Et.
  - simpl in Hn. discriminate.
  - assert (Str.isdigit c = true) as Hc
      by (unfold all_digits in Ht; simpl in Ht; by apply andb_prop in Ht as [? _]).
    assert ((match String c t with
             | String "-" r => (true, r)
             | String "+" r => (false, r)
             | _ => (false, String c t)
             end) = (false, String c t)) as Hsign.
    { destruct c as [[] [] [] [] [] [] [] []]; try reflexivity; vm_compute in Hc; discriminate. }
    rewrite Hsign in Hn.
    destruct (literal_digits false (String c t)) as [ds|] eqn:El; [|discriminate].
    apply literal_digits_all in El. unfold int_of_decimal in Hn.
    destruct (_ && _); [discriminate|]. simpl in Hn. injection Hn as <-.
    by apply int_of_digits_nonneg.
Qed.

Lemma extract_reviewer_rating_nonneg (container : Node) (n : Z) :
  _extract_reviewer_rating container = Return (Some n) -> 0 <= n.
Proof.
  unfold _extract_reviewer_rating.
  destruct (find_by_attr _ _ _) as [rating_el|]; [|discriminate].
  cbv zeta. destruct (Str.search _ _) as [group|] eqn:Es; [|discriminate].
  apply search_digits_all in Es.
  destruct (group_int_or_returns group Some None) as [->|(m & Hm & ->)]; [discriminate|].
  intros [= <-]. by eapply int_of_str_digits.
Qed.

Lemma search_digits_first_run (prev_word : bool) (s : string) :
  Str.search_from Str.re_digits prev_word s = first_digit_run s.
Proof.
  revert prev_word. induction s as [|c s IH]; intros prev_word; [done|].
  cbn [Str.search_from first_digit_run]. unfold Str.re_digits at 1.
  cbn [Str.span]. destruct (Str.isdigit c) eqn:Ec.
  - by destruct (Str.span Str.isdigit s) as [a b].
  - cbn [Str.is_empty]. apply IH.
Qed.

Lemma digit_is_no_literal_space (c : ascii) :
  Str.isdigit c = true -> literal_space c = false.
Proof.
  unfold Str.isdigit, literal_space, Str.between, Str.ord.
  intros [Hlo Hhi]%andb_prop. apply N.leb_le in Hlo.
  apply orb_false_intro.
  - apply andb_false_intro2. apply N.leb_gt. lia.
  - apply N.eqb_neq. lia.
Qed.

Lemma rstrip_of_digits (s : string) :
  all_digits s = true -> Str.rstrip_by literal_space s = s.
Proof.
  induction s as [|c s IH]; [done|]. unfold all_digits. simpl.
  intros [Hc Hs]%andb_prop. rewrite (digit_is_no_literal_space _ Hc). simpl.
  by rewrite IH.
Qed.

Lemma lstrip_of_digits (s : string) :
  all_digits s = true -> Str.lstrip_by literal_space s = s.
Proof.
  destruct s as [|c s]; [done|]. unfold all_digits. simpl.
  intros [Hc _]%andb_prop. by rewrite (digit_is_no_literal_space _ Hc).
Qed.

Lemma literal_digits_of_digits (s : string) (after_digit : bool) :
  all_digits s = true ->
  literal_digits after_digit s
  = match s with
    | EmptyString => if after_digit then Some EmptyString else None
    | String _ _ => Some s
    end.
Proof.
  revert after_digit. induction s as [|c s IH]; intros after_digit; [done|].
  unfold all_digits. simpl. intros [Hc Hs]%andb_prop. rewrite Hc.
  rewrite (IH true Hs). by destruct s.
Qed.

(** [int] of a run of digits: the number of the run, or [ValueError] when
    the run is longer than the interpreter converts. *)
Lemma int_of_str_run (limit : nat) (run : string) :
  all_digits run = true -> run <> EmptyString ->
  int_of_str limit run = int_of_decimal limit run.
Proof.
  intros Hd Hne. unfold int_of_str.
  rewrite (lstrip_of_digits _ Hd), (rstrip_of_digits _ Hd).
  destruct run as [|c t]; [done|].
  assert (Str.isdigit c = true) as Hc
    by (unfold all_digits in Hd; simpl in Hd; by apply andb_prop in Hd as [? _]).
  assert ((match String c t with
           | String "-" r => (true, r)
           | String "+" r => (false, r)
           | _ => (false, String c t)
           end) = (false, String c t)) as ->.
  { destruct c as [[] [] [] [] [] [] [] []]; try reflexivity; vm_compute in Hc; discriminate. }
  rewrite (literal_digits_of_digits _ false Hd).
  by destruct (int_of_decimal limit (String c t)).
Qed.

Lemma first_digit_run_digits (s run : string) :
  first_digit_run s = Some run -> all_digits run = true /\ run <> EmptyString.
Proof.
  revert run. induction s as [|c s IH]; intros run; [discriminate|].
  cbn [first_digit_run].
  destruct (Str.isdigit c) eqn:Ec; [|apply IH].
  intros [= <-]. split; [apply (span_digits_all (String c s))|].
  cbn [Str.span]. rewrite Ec. by destruct (Str.span Str.isdigit s).
Qed.

(** The rating strategy gives the number of the first run of digits of the
    star label. *)
Lemma extract_reviewer_rating_eq (container : Node) :
  _extract_reviewer_rating container = Return (label_rating max_str_digits container).
Proof.
  unfold _extract_reviewer_rating, label_rating, star_label.
  destruct (find_by_attr _ _ _) as [rating_el|]; [|done]. cbv zeta.
  unfold Str.search. rewrite search_digits_first_run.
  destruct (first_digit_run _) as [run|] eqn:Er; [|done].
  destruct (first_digit_run_digits _ _ Er) as [Hd Hne].
  unfold group_int_or. rewrite (int_of_str_run _ _ Hd Hne).
  unfold int_of_decimal, number_of_run.
  by destruct (_ && _).
Qed.

(** *** Comparing dates *)

Lemma datetime_ge_same_awareness (d bound : datetime) :
  same_awareness d bound = true -> datetime_ge d bound = Return (on_or_after d bound).
Proof.
  unfold same_awareness, datetime_ge, on_or_after, instant.
  destruct (utcoffset d), (utcoffset bound); try discriminate; intros _; simpl.
  - reflexivity.
  - do 2 f_equal; lia.
Qed.

Lemma datetime_ge_mixed_awareness (d bound : datetime) :
  same_awareness d bound = false -> datetime_ge d bound = Raise TypeError.
Proof.
  unfold same_awareness, datetime_ge.
  by destruct (utcoffset d), (utcoffset bound).
Qed.

(** With a bound set and a date that parses, the rule answers when both
    values are naive or both aware, and raises otherwise. *)
Lemma passes_date_filter_parsed (review : dict) (filters : ReviewFilters)
    (bound d : datetime) :
  from_date filters = Some bound ->
  truthy (Py.get review "review_date") = true ->
  _ensure_datetime (Py.get review "review_date") = Return d ->
  _passes_date_filter review filters
  = if same_awareness d bound then Return (on_or_after d bound) else Raise TypeError.
Proof.
  intros Hd Ht He. rewrite (passes_date_filter_compared _ _ _ _ Hd Ht He).
  destruct (same_awareness d bound) eqn:Es.
  - by apply datetime_ge_same_awareness.
  - by apply datetime_ge_mixed_awareness.
Qed.

(** *** What a page returns *)

Lemma parse_business_page_returns (settings : dict) (url : string) (soup : Node)
    (business : BusinessInfo) (n : Z) (filters : ReviewFilters) (kept : list dict) :
  fetch_soup url = Return soup ->
  _parse_business_info soup url = Return business ->
  int max_str_digits (get_or settings "max_reviews" (VInt 200)) = Return n ->
  from_settings settings = Return filters ->
  apply_filters (slice_to (_parse_reviews soup) n) filters = Return kept ->
  parse_business_page settings url
  = Return (map (output_record business (_build_rating_histogram kept)) kept).
Proof.
  intros Hs Hb Hn Hf Hk. rewrite (parse_business_page_eq _ _ _ _ _ _ Hs Hb Hn Hf).
  by rewrite Hk.
Qed.

(** C1 (amended).  When [max_reviews] (200 when the setting is absent)
    converts to a non-negative integer [n], the raw reviews are cut to their
    first [n], in extraction order, before the filter runs: the page returns
    what the filter and the assembly make of those [n] reviews, so the
    number of records is the number of reviews among the first [n] that
    pass the filter, and with no date bound the page returns, with as many
    records as reviews among the first [n] pass the rating rule. *)
Theorem truncation_before_filter (settings : dict) (url : string) (soup : Node)
    (business : BusinessInfo) (n : Z) (filters : ReviewFilters) :
  fetch_soup url = Return soup ->
  _parse_business_info soup url = Return business ->
  int max_str_digits (get_or settings "max_reviews" (VInt 200)) = Return n ->
  0 <= n ->
  from_settings settings = Return filters ->
  parse_business_page settings url
  = (let* kept := apply_filters (first_reviews n (_parse_reviews soup)) filters in
     Return (map (output_record business (_build_rating_histogram kept)) kept))
  /\ (forall records,
        parse_business_page settings url = Return records ->
        Z.of_nat (length records)
        = count (passes_filters filters) (first_reviews n (_parse_reviews soup)))
  /\ (from_date filters = None ->
      exists records,
        parse_business_page settings url = Return records /\
        Z.of_nat (length records)
        = count (fun r => _passes_rating_filter r filters)
                (first_reviews n (_parse_reviews soup))).
Proof.
  intros Hs Hb Hn Hpos Hf.
  pose proof (parse_business_page_eq _ _ _ _ _ _ Hs Hb Hn Hf) as Heq.
  rewrite slice_to_nonneg in Heq by done. fold (first_reviews n (_parse_reviews soup)) in Heq.
  split; [exact Heq|]. split.
  - intros records Hr. rewrite Heq in Hr. exc_inv Hr. injection Hr as <-.
    rewrite length_map. unfold count. by rewrite <- (apply_filters_kept _ _ _ Ha).
  - intros Hd. rewrite Heq, (apply_filters_no_date _ _ Hd). simpl.
    eexists. split; [reflexivity|]. by rewrite length_map.
Qed.

(** C2 (amended).  When the filter returns the reviews [kept], the page
    returns one record per kept review (none when none is kept); every
    record carries the URL, name, review-count text, price range, address
    and phone of the page's business record unchanged, and shows its
    average rating as a text with one decimal (absent when the rating is
    absent). *)
Theorem records_carry_business_info (settings : dict) (url : string) (soup : Node)
    (business : BusinessInfo) (n : Z) (filters : ReviewFilters) (kept : list dict) :
  fetch_soup url = Return soup ->
  _parse_business_info soup url = Return business ->
  int max_str_digits (get_or settings "max_reviews" (VInt 200)) = Return n ->
  from_settings settings = Return filters ->
  apply_filters (slice_to (_parse_reviews soup) n) filters = Return kept ->
  exists records,
    parse_business_page settings url = Return records /\
    length records = length kept /\
    (kept = [] -> records = []) /\
    Forall (fun record =>
              carries_business business record /\
              record !! "average_rating"
              = Some (rendered_rating (average_rating business)))
           records.
Proof.
  intros Hs Hb Hn Hf Hk. eexists. split; [by eapply parse_business_page_returns|].
  split; [by rewrite length_map|]. split; [by intros ->|].
  apply Forall_map. eapply Forall_impl; [by eapply kept_reviews_fields|].
  intros review Hdom. simpl.
  destruct (output_record_business business (_build_rating_histogram kept) review Hdom)
    as (Hc & Ha & _).
  by split.
Qed.


(** C4 (amended).  The buckets sum to the number of reviews of the list
    whose rating is a known integer of 1..5; reviews whose rating is absent
    or out of range are not counted, so the sum never exceeds the length of
    the list and equals it exactly when every review has such a rating. *)
Theorem bucket_sum_counts_rated_reviews (reviews : list dict) :
  bucket_sum (_build_rating_histogram reviews) = count rated_in_range reviews
  /\ bucket_sum (_build_rating_histogram reviews) <= Z.of_nat (length reviews)
  /\ (bucket_sum (_build_rating_histogram reviews) = Z.of_nat (length reviews)
      <-> Forall (fun review => rated_in_range review = true) reviews).
Proof.
  rewrite bucket_sum_count. split; [done|]. split.
  - apply count_le_length.
  - apply count_eq_length.
Qed.

(** C5.  The rating rule keeps a review whose rating is a known integer
    exactly when the rating is not below [min_rating] and not above
    [max_rating], a bound that is unset constraining nothing; it keeps a
    review whose rating is unknown or no integer exactly when neither bound
    is set.  A review without a rating is dropped under the settings
    [{min_rating: 3}]. *)
Theorem rating_rule (review : dict) (filters : ReviewFilters) :
  match known_rating review with
  | Some rating =>
      _passes_rating_filter review filters = true <->
      (forall lo, min_rating filters = Some lo -> lo <= rating) /\
      (forall hi, max_rating filters = Some hi -> rating <= hi)
  | None =>
      _passes_rating_filter review filters = true <->
      min_rating filters = None /\ max_rating filters = None
  end
  /\ (known_rating review = None ->
      exists filters_3,
        from_settings Sample.settings_min_3 = Return filters_3 /\
        min_rating filters_3 = Some 3 /\
        _passes_rating_filter review filters_3 = false).
Proof.
  split.
  - unfold _passes_rating_filter, known_rating.
    destruct (as_int (Py.get review "latest_reviewer_rating")) as [rating|].
    + destruct (min_rating filters) as [lo|], (max_rating filters) as [hi|];
        repeat match goal with
               | |- context [?a <? ?b] => destruct (Z.ltb_spec a b)
               end;
        split; try done; try (intros [Hlo Hhi]);
        try (specialize (Hlo _ eq_refl)); try (specialize (Hhi _ eq_refl)); try lia;
        intros _; split; intros ? [= <-]; lia.
    + destruct (min_rating filters), (max_rating filters); split; try done;
        intros [? ?]; discriminate.
  - intros Hr. eexists. split; [reflexivity|]. split; [reflexivity|].
    unfold _passes_rating_filter. unfold known_rating in Hr. by rewrite Hr.
Qed.

Lemma parse_containers_omap (containers : list Node) :
  parse_containers containers
  = omap (fun c => match _parse_single_review c with
                   | Return review => Some review
                   | Raise _ => None
                   end) containers.
Proof.
  induction containers as [|c cs IH]; [done|].
  rewrite parse_containers_cons, IH. simpl.
  by destruct (_parse_single_review c).
Qed.

(** C7.  [_parse_reviews] returns, for every page, the records of the
    located containers whose extraction returns, in their order.  When the
    extraction of one container raises, that container alone is left out:
    the result is what the containers before it and after it give on their
    own; when it returns, its record stands between theirs.  A review date
    that is present and does not parse is such an error. *)
Theorem failing_container_is_skipped (soup : Node) (before after : list Node) (c : Node) :
  _locate_review_containers soup = before ++ c :: after ->
  _parse_reviews soup
  = omap (fun c => match _parse_single_review c with
                   | Return review => Some review
                   | Raise _ => None
                   end) (before ++ c :: after)
  /\ (forall e, _parse_single_review c = Raise e ->
        _parse_reviews soup
        = parse_containers before ++ parse_containers after)
  /\ (forall review, _parse_single_review c = Return review ->
        _parse_reviews soup
        = parse_containers before ++ review :: parse_containers after)
  /\ (forall raw e, _extract_review_date_raw c = Some raw ->
        parse_review_date raw = Raise e ->
        _parse_single_review c = Raise e).
Proof.
  intros Hloc. unfold _parse_reviews. cbv zeta. rewrite Hloc.
  split; [apply parse_containers_omap|].
  rewrite parse_containers_app, parse_containers_cons.
  split; [by intros e ->|]. split; [by intros review ->|].
  apply unparseable_date_raises.
Qed.

(** C8 (amended).  In every extracted review record the rating field is
    absent or a non-negative integer, and it is the number the first run
    of digits of the star label denotes: absent when the container has no
    star label, when the label holds no digit, or when the run is longer
    than the interpreter converts.  The number is not restricted to
    1..5. *)
Theorem reviewer_rating_absent_or_nonnegative (container : Node) (review : dict) :
  _parse_single_review container = Return review ->
  (review !! "latest_reviewer_rating" = Some VNone
   \/ exists n, 0 <= n /\ review !! "latest_reviewer_rating" = Some (VInt n))
  /\ review !! "latest_reviewer_rating"
     = Some (opt_int (label_rating max_str_digits container)).
Proof.
  intros Hr. destruct (parse_single_review_rating _ _ Hr) as (rating & Hn & Hl).
  split.
  - rewrite Hl. destruct rating as [n|]; [|by left].
    right. exists n. split; [by eapply extract_reviewer_rating_nonneg | done].
  - rewrite extract_reviewer_rating_eq in Hn. by injection Hn as <-.
Qed.

(** C9 (amended).  The media list of a container has no duplicates.  It
    lists the sources of the pictures that carry the vendor marker, in
    document order, and after them the sources of the videos, in document
    order, each source once, at its first occurrence in that sequence. *)
Theorem media_urls_images_then_videos (container : Node) :
  NoDup (_extract_review_media_urls container)
  /\ _extract_review_media_urls container
     = first_occurrences (image_sources container ++ video_sources container)
  /\ (forall url, url ∈ _extract_review_media_urls container
                  <-> url ∈ image_sources container \/ url ∈ video_sources container)
  /\ sublist (_extract_review_media_urls container)
             (image_sources container ++ video_sources container).
Proof.
  rewrite extract_review_media_urls_eq.
  split; [apply first_occurrences_NoDup|]. split; [done|]. split.
  - intros url. by rewrite first_occurrences_elem_of, elem_of_app.
  - apply first_occurrences_sublist.
Qed.


End Properties.


(** ** The properties on the sample pages *)

Section Samples.
#[local] Existing Instance Sample.externals.

(** Closed side conditions: the code is run on the sample. *)
Ltac run :=
  lazymatch goal with
  | |- fetch_soup _ = _ => reflexivity
  | |- apply_filters _ _ = _ => apply apply_filters_no_date; reflexivity
  | |- @eq (Exc _) _ _ => vm_compute; reflexivity
  | |- @eq (list _) _ _ => vm_compute; reflexivity
  | |- @eq (option _) _ _ => vm_compute; reflexivity
  | |- @eq Z _ _ => vm_compute; reflexivity
  | |- @eq nat _ _ => vm_compute; reflexivity
  | |- @eq bool _ _ => vm_compute; reflexivity
  | |- Z.le _ _ => lia
  | |- _ => idtac
  end.

Ltac run_all := repeat match goal with |- _ /\ _ => split end; run.

(** The scenario of C1: 250 synthetic reviews, [max_reviews] 200 and
    [min_rating] 4.  The page returns 80 records, the number of reviews
    rated 4 or 5 among the first 200, while 100 of all 250 are rated so. *)
Lemma truncation_before_filter_witness :
  length (_parse_reviews Sample.page_250) = 250%nat
  /\ (exists records,
        parse_business_page Sample.settings_200_min_4 Sample.url_synthetic = Return records /\
        Z.of_nat (length records)
        = count (rated_at_least 4) (first_reviews 200 (_parse_reviews Sample.page_250)))
  /\ count (rated_at_least 4) (first_reviews 200 (_parse_reviews Sample.page_250)) = 80
  /\ Z.min 200 (count (rated_at_least 4) (_parse_reviews Sample.page_250)) = 100.
Proof.
  assert (count (rated_at_least 4) (first_reviews 200 (_parse_reviews Sample.page_250)) = 80)
    as Hfirst by run.
  split; [run|]. split; [|split; [exact Hfirst | run]].
  destruct (truncation_before_filter Sample.settings_200_min_4 Sample.url_synthetic
              Sample.page_250 (Sample.business Sample.url_synthetic) 200
              (mk_ReviewFilters (Some 4) None None))
    as (_ & _ & Hex); run.
  destruct (Hex eq_refl) as (records & Hp & Hlen).
  exists records. split; [exact Hp|]. rewrite Hlen, Hfirst. run.
Defined.

(** C1, as stated, fails for a negative [max_reviews]: with the limit -1
    the page with two reviews returns one record, the slice dropping the
    last review, while the first -1 reviews are none. *)
Lemma truncation_negative_max_reviews :
  int max_str_digits (get_or Sample.settings_negative "max_reviews" (VInt 200)) = Return (-1)
  /\ length (_parse_reviews Sample.page_two) = 2%nat
  /\ length <$> returned (parse_business_page Sample.settings_negative Sample.url_two)
     = Some 1%nat
  /\ length (first_reviews (-1) (_parse_reviews Sample.page_two)) = 0%nat.
Proof. run_all. Qed.

(** The page of three containers under empty settings: two records, each
    with the URL and the name of the business and the rating text. *)
Lemma records_carry_business_info_witness :
  exists records,
    parse_business_page Sample.settings_empty Sample.url_three = Return records /\
    length records = 2%nat /\
    Forall (fun record =>
              record !! "business_url" = Some (VStr Sample.url_three) /\
              record !! "business_name" = Some (VStr "Taco Stand") /\
              record !! "average_rating" = Some (VStr "4.2"))
           records.
Proof.
  destruct (records_carry_business_info Sample.settings_empty Sample.url_three
              Sample.page_three (Sample.business Sample.url_three) 200
              (mk_ReviewFilters None None None)
              (filter (fun r => _passes_rating_filter r (mk_ReviewFilters None None None) = true)
                      (slice_to (_parse_reviews Sample.page_three) 200)))
    as (records & Hp & Hlen & _ & Hall); run.
  exists records. split; [exact Hp|]. split; [rewrite Hlen; run|].
  eapply Forall_impl; [exact Hall|].
  intros record ((Hurl & Hname & _) & Havg). repeat split; assumption.
Defined.

(** C2, as stated, fails on the average rating: the business record of the
    sample page holds the number 4.25, its output records hold the text
    "4.2". *)
Lemma average_rating_is_rendered :
  _parse_business_info Sample.page_three Sample.url_three
  = Return (Sample.business Sample.url_three)
  /\ average_rating (Sample.business Sample.url_three) = Some 4.25%float
  /\ first_field "average_rating"
       (parse_business_page Sample.settings_empty Sample.url_three)
     = Some (VStr "4.2")
  /\ Some (VStr "4.2")
     <> Some (opt_float (average_rating (Sample.business Sample.url_three))).
Proof. run_all. discriminate. Qed.


(** C4, as stated, fails: a review without a rating and a review rated ten
    are counted in no bucket. *)
Lemma bucket_sum_below_length :
  bucket_sum (_build_rating_histogram [Sample.unrated; Sample.rated_ten]) = 0
  /\ bucket_sum (_build_rating_histogram [Sample.unrated; Sample.rated_ten])
     <> Z.of_nat (length [Sample.unrated; Sample.rated_ten]).
Proof. split; [run | vm_compute; discriminate]. Qed.

(** A review without a rating is dropped under the bound 3 and kept when no
    bound is set. *)
Lemma rating_rule_witness :
  known_rating Sample.unrated = None
  /\ _passes_rating_filter Sample.unrated (mk_ReviewFilters (Some 3) None None) = false
  /\ _passes_rating_filter Sample.unrated (mk_ReviewFilters None None None) = true.
Proof.
  split; [reflexivity|].
  destruct (rating_rule Sample.unrated (mk_ReviewFilters None None None)) as (Hrule & Hdrop).
  destruct (Hdrop eq_refl) as (filters_3 & Hf & _ & Hfalse).
  injection Hf as <-. split; [exact Hfalse|].
  change (known_rating Sample.unrated) with (@None Z) in Hrule.
  apply Hrule. split; reflexivity.
Defined.

(** C6, at the failing input: a review dated 2024-01-05 with a UTC offset
    under the naive bound 2024-01-01 that the settings
    [{from_date: "2024-01-01"}] give.  The date is on a later day than the
    bound, yet the rule returns neither answer: the comparison raises
    [TypeError], for the date held as a value and for the date held as a
    text, and the page that holds such a review returns no records. *)
Theorem date_rule_raises_on_mixed_awareness :
  from_settings Sample.settings_from_2024
  = Return (mk_ReviewFilters None None (Some (Sample.naive 2024 1 1)))
  /\ _passes_date_filter Sample.dated_aware
       (mk_ReviewFilters None None (Some (Sample.naive 2024 1 1)))
     = Raise TypeError
  /\ _ensure_datetime (Py.get Sample.dated_utc "review_date") = Return (Sample.utc 2024 1 5)
  /\ _passes_date_filter Sample.dated_utc
       (mk_ReviewFilters None None (Some (Sample.naive 2024 1 1)))
     = Raise TypeError
  /\ (fun review => review !! "review_date") <$> _parse_reviews Sample.page_utc
     = [Some (VStr "2024-01-05T00:00:00+00:00")]
  /\ parse_business_page Sample.settings_from_2024 Sample.url_utc = Raise TypeError.
Proof. run_all. Qed.

(** Three containers, the date of the second does not parse: the reviews of
    the page are those of the first and the third container, as on the page
    without the second. *)
Lemma failing_container_is_skipped_witness :
  length (_locate_review_containers Sample.page_three) = 3%nat
  /\ raised (_parse_single_review
               (Sample.review_block "b" "4 star rating" (Some "sometime last week")))
     = true
  /\ (fun review => review !! "latest_reviewer_rating") <$> _parse_reviews Sample.page_three
     = [Some (VInt 5); Some (VInt 2)]
  /\ (fun review => review !! "latest_reviewer_rating") <$> _parse_reviews Sample.page_two
     = [Some (VInt 5); Some (VInt 2)].
Proof.
  destruct (failing_container_is_skipped Sample.page_three
              [Sample.review_block "a" "5 star rating" (Some "Jan 5, 2024")]
              [Sample.review_block "c" "2 star rating" (Some "Dec 24, 2023")]
              (Sample.review_block "b" "4 star rating" (Some "sometime last week")))
    as (_ & Hraise & _ & Hdate); run.
  split; [run|]. split; [run|]. split; [|run].
  rewrite (Hraise ValueError); [run|].
  apply (Hdate "sometime last week"); run.
Defined.

(** The container whose label reads ten extracts: the first run of digits
    of its label is "10", and its rating is 10. *)
Lemma reviewer_rating_absent_or_nonnegative_witness :
  raised (_parse_single_review Sample.ten_stars) = false
  /\ star_label Sample.ten_stars = Some "10 star rating"
  /\ first_digit_run "10 star rating" = Some "10"
  /\ match _parse_single_review Sample.ten_stars with
     | Return review => review !! "latest_reviewer_rating" = Some (VInt 10)
     | Raise _ => True
     end.
Proof.
  split; [run|]. split; [run|]. split; [run|].
  destruct (_parse_single_review Sample.ten_stars) as [review|e] eqn:E; [|exact I].
  destruct (reviewer_rating_absent_or_nonnegative Sample.ten_stars review E) as [_ Hv].
  rewrite Hv. run.
Defined.

(** C8, as stated, fails: a star label that reads ten gives the rating
    10. *)
Lemma rating_ten_extracted :
  (fun review => review !! "latest_reviewer_rating")
    <$> returned (_parse_single_review Sample.ten_stars)
  = Some (Some (VInt 10))
  /\ ~ absent_or_in_star_range (VInt 10).
Proof.
  split; [run|].
  intros [Hnone | (n & Hn & Hrange)]; [discriminate|].
  injection Hn as <-. lia.
Qed.

(** C9, as stated, fails: with a video in front of a picture the list
    starts with the picture, against the order of the document. *)
Lemma media_urls_not_in_document_order :
  document_order_media Sample.video_first
  = ["https://media.example/clip.mp4"; "https://s3.yelpcdn.com/photo.jpg"]
  /\ _extract_review_media_urls Sample.video_first
     = ["https://s3.yelpcdn.com/photo.jpg"; "https://media.example/clip.mp4"]
  /\ ~ sublist (_extract_review_media_urls Sample.video_first)
               (document_order_media Sample.video_first).
Proof.
  split; [vm_compute; reflexivity|]. split; [vm_compute; reflexivity|].
  intros Hsub.
  replace (_extract_review_media_urls Sample.video_first)
    with ["https://s3.yelpcdn.com/photo.jpg"; "https://media.example/clip.mp4"] in Hsub
    by (vm_compute; reflexivity).
  replace (document_order_media Sample.video_first)
    with ["https://media.example/clip.mp4"; "https://s3.yelpcdn.com/photo.jpg"] in Hsub
    by (vm_compute; reflexivity).
  repeat match goal with
         | Hs : sublist _ _ |- _ => inversion Hs; clear Hs; subst
         end.
Qed.


End Samples.

(** ** Further properties of the filter, the extraction and the runner *)

Section Coverage.
Context `{Externals}.

Ltac bind_inv H :=
  cbv zeta in H;
  repeat (apply bind_Return_inv in H;
          let a := fresh "a" in
          let Ha := fresh "Ha" in
          destruct H as (a & Ha & H);
          cbv beta in H;
          repeat match type of H with
                 | context [match a with pair _ _ => _ end] =>
                     destruct a as [a ?]; cbv beta iota in H
                 end).

(** *** The filter *)

Lemma passes_filters_true (filters : ReviewFilters) (review : dict) :
  passes_filters filters review = true <->
  _passes_rating_filter review filters = true /\
  _passes_date_filter review filters = Return true.
Proof.
  unfold passes_filters.
  destruct (_passes_rating_filter review filters); simpl.
  - destruct (_passes_date_filter review filters) as [[]|e]; split;
      try done; try (intros [_ ?]; discriminate).
  - split; [done | by intros [? _]].
Qed.

Lemma apply_filters_all_pass (reviews : list dict) (filters : ReviewFilters) :
  Forall (fun r => passes_filters filters r = true) reviews ->
  apply_filters reviews filters = Return reviews.
Proof.
  induction 1 as [|r rs Hr _ IH]; [done|].
  apply passes_filters_true in Hr as [Hrating Hdate].
  by rewrite apply_filters_cons, Hrating, Hdate, IH.
Qed.

(** X1.  Filtering what the filter returned returns it again. *)
Theorem apply_filters_idempotent (reviews kept : list dict) (filters : ReviewFilters) :
  apply_filters reviews filters = Return kept ->
  apply_filters kept filters = Return kept.
Proof.
  intros Hk. apply apply_filters_all_pass.
  rewrite (apply_filters_kept _ _ _ Hk), Forall_forall.
  intros r Hr. by apply list_elem_of_filter in Hr as [? _].
Qed.

(** X2.  What the filter returns is a subsequence of its input, in the
    order of the input, and holds exactly the reviews that the rating rule
    keeps and the date rule answers with [True]. *)
Theorem apply_filters_order_preserving (reviews kept : list dict) (filters : ReviewFilters) :
  apply_filters reviews filters = Return kept ->
  sublist kept reviews
  /\ (length kept <= length reviews)%nat
  /\ (forall r, r ∈ kept <->
                r ∈ reviews /\
                _passes_rating_filter r filters = true /\
                _passes_date_filter r filters = Return true).
Proof.
  intros Hk. split; [by eapply apply_filters_sublist|].
  split; [eapply sublist_length; by eapply apply_filters_sublist|].
  intros r. rewrite (apply_filters_kept _ _ _ Hk), list_elem_of_filter.
  rewrite passes_filters_true. tauto.
Qed.

Lemma passes_date_filter_raises (review : dict) (filters : ReviewFilters) (e : exn) :
  _passes_date_filter review filters = Raise e -> e = TypeError.
Proof.
  unfold _passes_date_filter, datetime_ge.
  destruct (from_date filters) as [bound|]; [|discriminate].
  destruct (negb _); [discriminate|].
  destruct (_ensure_datetime _) as [d|]; [|discriminate].
  destruct (utcoffset d), (utcoffset bound); congruence.
Qed.

Lemma apply_filters_raises (reviews : list dict) (filters : ReviewFilters) (e : exn) :
  apply_filters reviews filters = Raise e -> e = TypeError.
Proof.
  induction reviews as [|r rs IH]; [discriminate|].
  rewrite apply_filters_cons.
  destruct (_passes_rating_filter r filters); simpl; [|exact IH].
  destruct (_passes_date_filter r filters) as [keep|e0] eqn:Ed; simpl.
  - destruct (apply_filters rs filters) as [result|e1]; simpl; [discriminate|].
    intros [= <-]. by apply IH.
  - intros [= <-]. by eapply passes_date_filter_raises.
Qed.

(** X3.  The filter returns exactly when the date rule answers for every
    review that the rating rule keeps; a review the rating rule drops is
    never compared.  When the filter raises, it raises [TypeError]. *)
Theorem apply_filters_returns_iff (reviews : list dict) (filters : ReviewFilters) :
  ((exists kept, apply_filters reviews filters = Return kept) <->
   Forall (fun r => _passes_rating_filter r filters = true ->
                    raised (_passes_date_filter r filters) = false) reviews)
  /\ (forall e, apply_filters reviews filters = Raise e -> e = TypeError).
Proof.
  split; [|apply apply_filters_raises].
  induction reviews as [|r rs IHret].
  - split; [constructor | by eexists].
  - rewrite apply_filters_cons.
    destruct (_passes_rating_filter r filters) eqn:Er; simpl.
    + destruct (_passes_date_filter r filters) as [keep|e0] eqn:Ed; simpl.
      * destruct (apply_filters rs filters) as [result|e1] eqn:Ea; simpl.
        -- split; [|by eexists].
           intros _. constructor; [by rewrite Ed|]. apply IHret. by eexists.
        -- split; [by intros [? ?]|].
           intros Hall. apply Forall_cons in Hall as [_ Hall].
           apply IHret in Hall as [? ?]. discriminate.
      * split; [by intros [? ?]|].
        intros Hall. apply Forall_cons in Hall as [Hr _].
        specialize (Hr Er). by rewrite Ed in Hr.
    + rewrite IHret. split.
      * intros Hall. constructor; [congruence | exact Hall].
      * intros Hall. by apply Forall_cons in Hall as [_ ?].
Qed.

Lemma rating_bound_cases (raw : value) :
  rating_bound raw
  = if infinite_float raw then Raise OverflowError
    else Return (bound_of max_str_digits raw).
Proof.
  unfold rating_bound, bound_of, infinite_float, int.
  destruct raw as [|b|z|x|s|d|l|m]; try reflexivity.
  - unfold int_of_float. by destruct (Prim2SF x).
  - destruct (int_of_str max_str_digits s) as [n|e] eqn:E; [done|].
    by rewrite (int_of_str_raises _ _ _ E).
Qed.

Lemma from_settings_cases (settings : dict) :
  from_settings settings
  = if infinite_float (Py.get settings "min_rating")
       || infinite_float (Py.get settings "max_rating")
    then Raise OverflowError
    else Return (mk_ReviewFilters
                   (bound_of max_str_digits (Py.get settings "min_rating"))
                   (bound_of max_str_digits (Py.get settings "max_rating"))
                   (if truthy (Py.get settings "from_date")
                    then returned (parse_review_date (str (Py.get settings "from_date")))
                    else None)).
Proof.
  unfold from_settings. cbv zeta. rewrite !rating_bound_cases.
  destruct (infinite_float (Py.get settings "min_rating")); [done|].
  destruct (infinite_float (Py.get settings "max_rating")); [done|].
  reflexivity.
Qed.

(** X4.  [from_settings] raises only [OverflowError], and exactly when
    [min_rating] or [max_rating] is an infinite float.  Otherwise it
    returns: a bound that is absent or [None] stays unset, a bound [int]
    converts is that integer, a bound [int] refuses with [TypeError] or
    [ValueError] is unset; the date bound is the parsed [from_date], and
    unset when [from_date] is absent, empty or does not parse. *)
Theorem from_settings_bounds (settings : dict) :
  (forall e, from_settings settings = Raise e <->
             e = OverflowError /\
             (infinite_float (Py.get settings "min_rating") = true \/
              infinite_float (Py.get settings "max_rating") = true))
  /\ (forall filters, from_settings settings = Return filters ->
        min_rating filters = bound_of max_str_digits (Py.get settings "min_rating") /\
        max_rating filters = bound_of max_str_digits (Py.get settings "max_rating") /\
        from_date filters
        = if truthy (Py.get settings "from_date")
          then returned (parse_review_date (str (Py.get settings "from_date")))
          else None).
Proof.
  rewrite from_settings_cases.
  destruct (infinite_float (Py.get settings "min_rating")); simpl.
  - split; [|discriminate]. intros e. split; [intros [= <-]; auto | by intros [-> _]].
  - destruct (infinite_float (Py.get settings "max_rating")); simpl.
    + split; [|discriminate]. intros e. split; [intros [= <-]; auto | by intros [-> _]].
    + split.
      * intros e. split; [discriminate | intros [_ [?|?]]; discriminate].
      * by intros filters [= <-].
Qed.

(** X5.  A [from_date] setting that is absent, empty or refused by the date
    parser switches the date rule off: under the filters [from_settings]
    builds, every review passes it, dated or not. *)
Theorem unusable_from_date_disables_date_rule (settings : dict) (filters : ReviewFilters) :
  from_settings settings = Return filters ->
  truthy (Py.get settings "from_date") = false
  \/ raised (parse_review_date (str (Py.get settings "from_date"))) = true ->
  forall review, _passes_date_filter review filters = Return true.
Proof.
  intros Hf Hraw review. rewrite from_settings_cases in Hf.
  destruct (_ || _); [discriminate|]. injection Hf as <-.
  apply passes_date_filter_unset. simpl.
  destruct Hraw as [-> | Hr]; [done|].
  destruct (truthy _); [|done].
  by destruct (parse_review_date _).
Qed.

(** X6.  With both rating bounds set and [max_rating] below [min_rating]
    the filter returns the empty list for every input, and never compares a
    date. *)
Theorem empty_rating_range_keeps_nothing (reviews : list dict) (filters : ReviewFilters)
    (lo hi : Z) :
  min_rating filters = Some lo ->
  max_rating filters = Some hi ->
  hi < lo ->
  apply_filters reviews filters = Return [].
Proof.
  intros Hlo Hhi Hlt.
  assert (forall r, _passes_rating_filter r filters = false) as Hdrop.
  { intros r. unfold _passes_rating_filter. rewrite Hlo, Hhi.
    destruct (as_int _) as [rating|]; [|done].
    destruct (Z.ltb_spec rating lo); [done|].
    destruct (Z.ltb_spec hi rating); [done|lia]. }
  induction reviews as [|r rs IH]; [done|].
  by rewrite apply_filters_cons, Hdrop.
Qed.

(** X7.  When the settings hold no rating bound and no usable date bound
    ([from_date] absent, empty or refused by the date parser), the filter
    [from_settings] builds returns every list of reviews unchanged. *)
Theorem no_constraint_keeps_everything (settings : dict) :
  Py.get settings "min_rating" = VNone ->
  Py.get settings "max_rating" = VNone ->
  truthy (Py.get settings "from_date") = false
  \/ raised (parse_review_date (str (Py.get settings "from_date"))) = true ->
  exists filters,
    from_settings settings = Return filters /\
    forall reviews, apply_filters reviews filters = Return reviews.
Proof.
  intros Hmin Hmax Hdate. rewrite from_settings_cases, Hmin, Hmax. simpl.
  eexists. split; [reflexivity|].
  intros reviews. apply apply_filters_all_pass, Forall_forall.
  intros r _. apply passes_filters_true. split.
  - unfold _passes_rating_filter. simpl. by destruct (as_int _).
  - apply passes_date_filter_unset. simpl.
    destruct Hdate as [-> | Hr]; [done|].
    destruct (truthy _); [|done]. by destruct (parse_review_date _).
Qed.


(** *** The review strategies *)

Lemma search_count_all (word : string) (plural prev_word : bool) (s group : string) :
  Str.search_from (Str.re_count word plural) prev_word s = Some group ->
  all_digits group = true.
Proof.
  assert (forall prev s group,
            Str.re_count word plural prev s = Some group -> all_digits group = true)
    as Hat.
  { intros prev s0 g Hm. unfold Str.re_count in Hm.
    pose proof (span_digits_all s0) as Hall.
    destruct (Str.span Str.isdigit s0) as [d r].
    destruct (Str.span Str.isspace r) as [w r'].
    destruct (Str.is_empty d || Str.is_empty w); [discriminate|].
    destruct (Str.match_ci word r') as [t|]; [|discriminate].
    destruct plural.
    - destruct (_ || _); [|discriminate]. by injection Hm as <-.
    - by injection Hm as <-. }
  revert prev_word. induction s as [|c s IH]; intros prev_word Hs.
  - cbn [Str.search_from] in Hs.
    destruct (Str.re_count word plural prev_word "") as [d|] eqn:Ed; [|discriminate].
    injection Hs as <-. by eapply Hat.
  - cbn [Str.search_from] in Hs.
    destruct (Str.re_count word plural prev_word (String c s)) as [d|] eqn:Ed.
    + injection Hs as <-. by eapply Hat.
    + by eapply IH.
Qed.

Lemma scan_count_nonneg (word : string) (plural : bool) (text : string) (start : Z) :
  0 <= start ->
  exists n, scan_count (Str.re_count word plural) text start = Return n /\ 0 <= n.
Proof.
  intros Hstart. unfold scan_count, Str.search.
  destruct (Str.search_from _ _ _) as [group|] eqn:Es; [|by eexists].
  apply search_count_all in Es.
  destruct (group_int_or_returns group (fun n => n) start) as [->|(n & Hn & ->)].
  - by eexists.
  - exists n. split; [done|]. by eapply int_of_str_digits.
Qed.

(** X8.  [_extract_reviewer_details] never raises: it returns a dict of
    exactly the three counters, each a non-negative integer (0 when its
    pattern is not found or its number does not convert). *)
Theorem reviewer_details_nonnegative (container : Node) :
  exists total_reviews total_friends photos,
    _extract_reviewer_details container
    = Return (list_to_map [("total_reviews", VInt total_reviews);
                           ("total_friends", VInt total_friends);
                           ("business_photos_uploaded", VInt photos)])
    /\ 0 <= total_reviews /\ 0 <= total_friends /\ 0 <= photos.
Proof.
  unfold _extract_reviewer_details. cbv zeta.
  destruct (scan_count_nonneg "review" true
              (Str.join " " (stripped_strings container)) 0) as (a & -> & Ha); [done|].
  destruct (scan_count_nonneg "friend" true
              (Str.join " " (stripped_strings container)) 0) as (b & -> & Hb); [done|].
  destruct (scan_count_nonneg "photo" true
              (Str.join " " (stripped_strings container)) 0) as (c & -> & Hc); [done|].
  exists a, b, c. by cbn [bind].
Qed.

(** X9.  [_extract_reaction_counts] never raises and returns four
    non-negative integers. *)
Theorem reaction_counts_nonnegative (container : Node) :
  exists helpful thanks love_this oh_no,
    _extract_reaction_counts container = Return (helpful, thanks, love_this, oh_no)
    /\ 0 <= helpful /\ 0 <= thanks /\ 0 <= love_this /\ 0 <= oh_no.
Proof.
  unfold _extract_reaction_counts. cbv zeta.
  destruct (scan_count_nonneg "Helpful" false
              (Str.join " " (stripped_strings container)) 0) as (a & -> & Ha); [done|].
  destruct (scan_count_nonneg "Thanks" false
              (Str.join " " (stripped_strings container)) 0) as (b & -> & Hb); [done|].
  destruct (scan_count_nonneg "Love this" false
              (Str.join " " (stripped_strings container)) 0) as (c & -> & Hc); [done|].
  destruct (scan_count_nonneg "Oh no" false
              (Str.join " " (stripped_strings container)) 0) as (d & -> & Hd); [done|].
  exists a, b, c, d. by cbn [bind].
Qed.

Lemma sort_by_len_nil (l : list string) : sort_by_len l = [] -> l = [].
Proof.
  destruct l as [|x l]; [done|]. unfold sort_by_len. simpl.
  destruct (foldr _ _ l) as [|y ys]; [done|]. simpl.
  by destruct (String.length x <=? String.length y)%nat.
Qed.

Lemma head_sort_by_len (l : list string) (m : string) :
  head (sort_by_len l) = Some m -> first_shortest m l.
Proof.
  revert m. induction l as [|x l IH]; intros m Hm; [discriminate|].
  unfold sort_by_len in Hm. simpl in Hm. fold (sort_by_len l) in Hm.
  destruct (sort_by_len l) as [|y ys] eqn:Es.
  - apply sort_by_len_nil in Es as ->. simpl in Hm. injection Hm as <-.
    exists [], []. repeat split; constructor.
  - destruct (IH y eq_refl) as (l1 & l2 & -> & H1 & H2).
    simpl in Hm. destruct (Nat.leb_spec (String.length x) (String.length y)) as [Hle|Hlt].
    + injection Hm as <-. exists [], (l1 ++ y :: l2). split; [done|]. split; [constructor|].
      apply Forall_app. split.
      * eapply Forall_impl; [exact H1|]. simpl. intros; lia.
      * constructor; [done|]. eapply Forall_impl; [exact H2|]. simpl. intros; lia.
    + injection Hm as <-. exists (x :: l1), l2. split; [done|]. split; [|done].
      by constructor.
Qed.

(** X10.  [_extract_reviewer_location] returns nothing exactly when no
    [span] holds a comma and a letter; otherwise it returns the candidate
    text that stands first among the shortest ones, in document order. *)
Theorem reviewer_location_first_shortest (container : Node) :
  (_extract_reviewer_location container = None <-> location_candidates container = [])
  /\ (forall location, _extract_reviewer_location container = Some location ->
        first_shortest location (location_candidates container)).
Proof.
  unfold _extract_reviewer_location. cbv zeta. fold (location_candidates container).
  split; [|intros location; apply head_sort_by_len].
  split.
  - intros Hh. apply sort_by_len_nil.
    by destruct (sort_by_len (location_candidates container)).
  - by intros ->.
Qed.

Lemma extract_business_response_eq (container : Node) :
  _extract_business_response container
  = match response_block container with
    | None => Return (None, None, None)
    | Some block =>
        let* response_date_iso :=
          match response_date_raw block with
          | Some raw => let* d := parse_review_date raw in Return (Some (isoformat d))
          | None => Return None
          end in
        Return (match find block "strong" with
                | Some strong =>
                    if Str.truthy (get_text "" strong)
                    then Some (get_text "" strong) else None
                | None => None
                end, response_date_iso, long_paragraphs block)
    end.
Proof. reflexivity. Qed.

(** X11.  [_parse_single_review] returns exactly when the date text of the
    review, if one is found, is accepted by the date parser and the date
    text of the owner's response, if one is found, is accepted too.  No
    other strategy can make it raise. *)
Theorem parse_single_review_returns_iff (container : Node) :
  (exists review, _parse_single_review container = Return review) <->
  (forall raw, _extract_review_date_raw container = Some raw ->
               raised (parse_review_date raw) = false)
  /\ (forall block raw, response_block container = Some block ->
                        response_date_raw block = Some raw ->
                        raised (parse_review_date raw) = false).
Proof.
  unfold _parse_single_review. cbv zeta.
  destruct (extract_reviewer_details_returns container) as [details ->].
  destruct (extract_reviewer_rating_returns container) as [rating ->].
  destruct (extract_reaction_counts_returns container) as [[[[a b] c] d'] ->].
  rewrite extract_business_response_eq. cbn [bind].
  assert (forall A (x : A) (P : Prop), P -> (exists y : A, Return x = Return y) <-> P)
    as Hret by (intros; split; [done | by eexists]).
  assert (forall A (e : exn) (P : Prop), ~ P -> (exists y : A, Raise e = Return y) <-> P)
    as Hraise by (intros; split; [by intros [? ?] | done]).
  destruct (_extract_review_date_raw container) as [raw|] eqn:Eraw;
    [destruct (parse_review_date raw) as [d|e] eqn:Ed|]; cbn [bind];
    try (apply Hraise; intros [Hr _]; specialize (Hr _ eq_refl); by rewrite Ed in Hr);
    (destruct (response_block container) as [block|] eqn:Eb;
     [destruct (response_date_raw block) as [rraw|] eqn:Erd;
      [destruct (parse_review_date rraw) as [rd|re] eqn:Er|]|]; cbn [bind];
     try (apply Hraise; intros [_ Hr]; specialize (Hr _ _ eq_refl Erd); by rewrite Er in Hr);
     apply Hret; split; intros; simplify_eq;
     repeat match goal with
            | E : ?x = _, H : ?x = Some _ |- _ => rewrite E in H; simplify_eq
            end;
     repeat match goal with
            | E : parse_review_date _ = _ |- _ => rewrite E
            end; done).
Qed.

(** X12.  In a review record that was extracted, [review_date] is [None]
    when no date text was found and otherwise the ISO rendering of the
    date the parser returned for that text; [response_date] is the same
    for the date text of the owner's response, and the three response
    fields are [None] when the container holds no response block. *)
Theorem review_dates_are_iso (container : Node) (review : dict) :
  _parse_single_review container = Return review ->
  match _extract_review_date_raw container with
  | None => review !! "review_date" = Some VNone
  | Some raw =>
      exists d, parse_review_date raw = Return d /\
                review !! "review_date" = Some (VStr (isoformat d))
  end
  /\ match response_block container with
     | None =>
         review !! "response_author_name" = Some VNone /\
         review !! "response_date" = Some VNone /\
         review !! "response_content" = Some VNone
     | Some block =>
         match response_date_raw block with
         | None => review !! "response_date" = Some VNone
         | Some raw =>
             exists d, parse_review_date raw = Return d /\
                       review !! "response_date" = Some (VStr (isoformat d))
         end
     end.
Proof.
  intros Hr. unfold _parse_single_review in Hr. bind_inv Hr.
  injection Hr as <-. split.
  - destruct (_extract_review_date_raw container) as [raw|].
    + apply bind_Return_inv in Ha1 as (d & Hd & [= <-]). by exists d.
    + by injection Ha1 as <-.
  - rewrite extract_business_response_eq in Ha3.
    destruct (response_block container) as [block|].
    + apply bind_Return_inv in Ha3 as (iso & Hiso & [= <- <- <-]).
      destruct (response_date_raw block) as [raw|].
      * apply bind_Return_inv in Hiso as (d & Hd & [= <-]). by exists d.
      * by injection Hiso as <-.
    + by injection Ha3 as <- <- <-.
Qed.

(** *** The page pipeline *)

Lemma parse_containers_length (containers : list Node) :
  (length (parse_containers containers) <= length containers)%nat.
Proof.
  induction containers as [|c cs IH]; [done|].
  rewrite parse_containers_cons.
  destruct (_parse_single_review c); simpl; lia.
Qed.

Lemma parse_containers_all_raise (containers : list Node) :
  Forall (fun c => raised (_parse_single_review c) = true) containers ->
  parse_containers containers = [].
Proof.
  induction 1 as [|c cs Hc _ IH]; [done|].
  rewrite parse_containers_cons. by destruct (_parse_single_review c).
Qed.

Lemma length_slice_to {A} (l : list A) (n : Z) :
  length (slice_to l n) = slice_length (length l) n.
Proof.
  unfold slice_to, slice_length.
  destruct (0 <=? n); rewrite length_take; lia.
Qed.

(** X13.  A page on which no container is located, or on which the
    extraction of every located container raises, gives the empty list of
    records: no error reaches the caller. *)
Theorem page_without_extractable_review (settings : dict) (url : string) (soup : Node)
    (business : BusinessInfo) (n : Z) (filters : ReviewFilters) :
  fetch_soup url = Return soup ->
  _parse_business_info soup url = Return business ->
  int max_str_digits (get_or settings "max_reviews" (VInt 200)) = Return n ->
  from_settings settings = Return filters ->
  Forall (fun c => raised (_parse_single_review c) = true) (_locate_review_containers soup) ->
  parse_business_page settings url = Return [].
Proof.
  intros Hs Hb Hn Hf Hall.
  rewrite (parse_business_page_eq _ _ _ _ _ _ Hs Hb Hn Hf).
  unfold _parse_reviews. cbv zeta. rewrite (parse_containers_all_raise _ Hall).
  assert (slice_to ([] : list dict) n = []) as ->; [|done].
  unfold slice_to. destruct (0 <=? n); apply take_nil.
Qed.

(** X14.  A page never returns more records than containers were located
    on it, nor more than the slice [[:max_reviews]] leaves of the extracted
    reviews: at most [max_reviews] when that number is not negative, and
    at most the number of located containers less [-max_reviews] when it
    is. *)
Theorem record_count_bounds (settings : dict) (url : string) (soup : Node) (n : Z)
    (records : list dict) :
  fetch_soup url = Return soup ->
  int max_str_digits (get_or settings "max_reviews" (VInt 200)) = Return n ->
  parse_business_page settings url = Return records ->
  (length records <= slice_length (length (_parse_reviews soup)) n)%nat
  /\ (length (_parse_reviews soup) <= length (_locate_review_containers soup))%nat
  /\ (length records <= length (_locate_review_containers soup))%nat
  /\ (0 <= n -> (length records <= Z.to_nat n)%nat)
  /\ (n < 0 -> (length records
                <= length (_locate_review_containers soup) - Z.to_nat (- n))%nat).
Proof.
  intros Hs Hn Hp. unfold parse_business_page in Hp.
  rewrite Hs in Hp. cbn [bind] in Hp.
  apply bind_Return_inv in Hp as (business & Hb & Hp). cbv zeta in Hp.
  rewrite Hn in Hp. cbn [bind] in Hp.
  apply bind_Return_inv in Hp as (filters & Hf & Hp).
  apply bind_Return_inv in Hp as (kept & Hk & Hp).
  injection Hp as <-. rewrite length_map.
  apply apply_filters_sublist, sublist_length in Hk.
  rewrite length_slice_to in Hk.
  pose proof (parse_containers_length (_locate_review_containers soup)) as Hc.
  fold (_parse_reviews soup) in Hc.
  unfold slice_length in *.
  destruct (Z.leb_spec 0 n); repeat split; lia.
Qed.

Lemma output_record_dom (business : BusinessInfo) (histogram review : dict) :
  dom review = list_to_set review_fields ->
  dom (output_record business histogram review)
  = list_to_set (review_fields ++ business_fields).
Proof.
  intros Hdom. unfold output_record. cbv zeta.
  rewrite dom_union_L, Hdom, list_to_set_app_L. f_equal.
Qed.

Lemma output_record_review_field (business : BusinessInfo) (histogram review : dict)
    (k : string) :
  is_Some (review !! k) ->
  output_record business histogram review !! k = review !! k.
Proof.
  intros [v Hv]. unfold output_record. cbv zeta. rewrite Hv.
  by apply lookup_union_Some_l.
Qed.

(** X15.  The records of a page stand in the order of the reviews the
    filter returned, one for each; a record has exactly the fifteen review
    keys and the eight business keys, and holds under every review key the
    value the review holds: no business field overwrites a review field. *)
Theorem output_records_keep_review_fields (settings : dict) (url : string) (soup : Node)
    (business : BusinessInfo) (n : Z) (filters : ReviewFilters) (kept : list dict) :
  fetch_soup url = Return soup ->
  _parse_business_info soup url = Return business ->
  int max_str_digits (get_or settings "max_reviews" (VInt 200)) = Return n ->
  from_settings settings = Return filters ->
  apply_filters (slice_to (_parse_reviews soup) n) filters = Return kept ->
  exists records,
    parse_business_page settings url = Return records /\
    Forall2 (fun record review =>
               dom record = list_to_set (review_fields ++ business_fields) /\
               forall k, k ∈ review_fields -> record !! k = review !! k)
            records kept.
Proof.
  intros Hs Hb Hn Hf Hk. eexists. split; [by eapply parse_business_page_returns|].
  apply Forall2_fmap_l, Forall_Forall2_diag.
  eapply Forall_impl; [by eapply kept_reviews_fields|].
  intros review Hdom. split; [by apply output_record_dom|].
  intros k Hin. apply output_record_review_field.
  apply elem_of_dom. rewrite Hdom. by apply elem_of_list_to_set.
Qed.

(** X24.  A call of [parse_business_page] raises only what the fetch, the
    business strategies or the conversion of [max_reviews] raise,
    [OverflowError] from the rating bounds of the settings, or [TypeError]
    from the comparison of dates in the filter, in this order of
    precedence; what a review container raises never reaches the
    caller. *)
Theorem parse_business_page_errors (settings : dict) (url : string) (e : exn) :
  parse_business_page settings url = Raise e ->
  fetch_soup url = Raise e
  \/ exists soup,
       fetch_soup url = Return soup /\
       (_parse_business_info soup url = Raise e
        \/ exists business,
             _parse_business_info soup url = Return business /\
             (int max_str_digits (get_or settings "max_reviews" (VInt 200)) = Raise e
              \/ exists n,
                   int max_str_digits (get_or settings "max_reviews" (VInt 200)) = Return n /\
                   ((from_settings settings = Raise e /\ e = OverflowError)
                    \/ exists filters,
                         from_settings settings = Return filters /\
                         apply_filters (slice_to (_parse_reviews soup) n) filters = Raise e /\
                         e = TypeError))).
Proof.
  unfold parse_business_page.
  destruct (fetch_soup url) as [soup|e0]; cbn [bind]; [|intros [= <-]; by left].
  intros Hp. right. exists soup. split; [done|].
  destruct (_parse_business_info soup url) as [business|e0]; cbn [bind] in Hp;
    [|injection Hp as <-; by left].
  right. exists business. split; [done|]. cbv zeta in Hp.
  destruct (int max_str_digits (get_or settings "max_reviews" (VInt 200))) as [n|e0];
    cbn [bind] in Hp; [|injection Hp as <-; by left].
  right. exists n. split; [done|].
  destruct (from_settings settings) as [filters|e0] eqn:Ef; cbn [bind] in Hp.
  - right. exists filters. split; [done|].
    destruct (apply_filters (slice_to (_parse_reviews soup) n) filters) as [kept|e1] eqn:Ek;
      cbn [bind] in Hp; [discriminate|].
    injection Hp as <-. split; [done|]. by eapply apply_filters_raises.
  - injection Hp as <-. left. split; [done|].
    rewrite from_settings_cases in Ef. destruct (_ || _); [|discriminate].
    by injection Ef as <-.
Qed.

(** *** The histogram *)

Lemma count_app {A} (p : A -> bool) (a b : list A) :
  count p (a ++ b) = count p a + count p b.
Proof. unfold count. rewrite filter_app, length_app. lia. Qed.

Lemma count_none {A} (p : A -> bool) (l : list A) :
  Forall (fun x => p x = false) l -> count p l = 0.
Proof.
  induction 1 as [|x l Hx _ IH]; [done|]. rewrite count_cons, Hx, IH. lia.
Qed.

Lemma bucket_count (reviews : list dict) (stars : Z) :
  1 <= stars <= 5 ->
  bucket (_build_rating_histogram reviews) stars = count (rated stars) reviews.
Proof. intros Hs. unfold bucket. by rewrite histogram_lookup. Qed.

(** X16.  The histogram of two lists put together holds, under each star
    value, the sum of the counts of the two histograms. *)
Theorem histogram_additive (a b : list dict) (stars : Z) :
  1 <= stars <= 5 ->
  bucket (_build_rating_histogram (a ++ b)) stars
  = bucket (_build_rating_histogram a) stars + bucket (_build_rating_histogram b) stars.
Proof. intros Hs. rewrite !bucket_count by done. apply count_app. Qed.

Lemma histogram_of_counts (a b : list dict) :
  (forall stars, 1 <= stars <= 5 -> count (rated stars) a = count (rated stars) b) ->
  _build_rating_histogram a = _build_rating_histogram b.
Proof.
  intros Hc. unfold _build_rating_histogram. cbv zeta. rewrite seqZ_1_5.
  cbn [map]. rewrite !rating_counter_lookup.
  change (in_star_range 1) with true. change (in_star_range 2) with true.
  change (in_star_range 3) with true. change (in_star_range 4) with true.
  change (in_star_range 5) with true. cbv iota.
  by rewrite (Hc 1), (Hc 2), (Hc 3), (Hc 4), (Hc 5) by lia.
Qed.

(** X17.  The histogram does not depend on the order of the reviews. *)
Theorem histogram_order_independent (a b : list dict) :
  a ≡ₚ b -> _build_rating_histogram a = _build_rating_histogram b.
Proof.
  intros Hp. apply histogram_of_counts. intros stars _.
  unfold count. by rewrite Hp.
Qed.

Lemma rated_passes (review : dict) (filters : ReviewFilters) (stars : Z) :
  rated stars review = true ->
  _passes_rating_filter review filters
  = negb (match min_rating filters with Some lo => stars <? lo | None => false end)
    && negb (match max_rating filters with Some hi => hi <? stars | None => false end).
Proof.
  unfold rated, known_rating, _passes_rating_filter.
  destruct (as_int _) as [n|]; [|discriminate].
  intros ->%Z.eqb_eq.
  destruct (match min_rating filters with Some lo => stars <? lo | None => false end);
    [done|].
  by destruct (match max_rating filters with Some hi => hi <? stars | None => false end).
Qed.

(** X18.  The histogram of what the filter returns holds 0 under every
    star value below [min_rating] or above [max_rating]; with no date
    bound, it holds under every star value within the bounds the count of
    the histogram of the unfiltered reviews. *)
Theorem filtered_histogram (reviews kept : list dict) (filters : ReviewFilters) (stars : Z) :
  apply_filters reviews filters = Return kept ->
  1 <= stars <= 5 ->
  ((exists lo, min_rating filters = Some lo /\ stars < lo)
   \/ (exists hi, max_rating filters = Some hi /\ hi < stars) ->
   _build_rating_histogram kept !! stars_key stars = Some (VInt 0))
  /\ (from_date filters = None ->
      (forall lo, min_rating filters = Some lo -> lo <= stars) ->
      (forall hi, max_rating filters = Some hi -> stars <= hi) ->
      _build_rating_histogram kept !! stars_key stars
      = _build_rating_histogram reviews !! stars_key stars).
Proof.
  intros Hk Hs. rewrite !histogram_lookup by done. split.
  - intros Hout. do 2 f_equal. apply count_none.
    rewrite (apply_filters_kept _ _ _ Hk), Forall_forall. intros r Hr.
    apply list_elem_of_filter in Hr as [Hpass _].
    apply passes_filters_true in Hpass as [Hrating _].
    destruct (rated stars r) eqn:Er; [|done].
    rewrite (rated_passes _ _ _ Er) in Hrating.
    destruct Hout as [(lo & Hlo & Hlt) | (hi & Hhi & Hlt)].
    + rewrite Hlo in Hrating. apply Z.ltb_lt in Hlt. by rewrite Hlt in Hrating.
    + rewrite Hhi in Hrating. apply Z.ltb_lt in Hlt. rewrite Hlt in Hrating.
      by destruct (match min_rating filters with Some _ => _ | None => _ end).
  - intros Hd Hlo Hhi. do 2 f_equal.
    rewrite (apply_filters_no_date _ _ Hd) in Hk. injection Hk as <-.
    induction reviews as [|r rs IH]; [done|].
    rewrite filter_cons, !count_cons.
    destruct (rated stars r) eqn:Er.
    + rewrite decide_True.
      * by rewrite count_cons, Er, IH.
      * rewrite (rated_passes _ _ _ Er).
        destruct (min_rating filters) as [lo|]; destruct (max_rating filters) as [hi|];
          simpl; repeat match goal with
                        | |- context [?x <? ?y] => destruct (Z.ltb_spec x y)
                        end; try done.
        all: try (specialize (Hlo _ eq_refl)); try (specialize (Hhi _ eq_refl)); lia.
    + case_decide; [by rewrite count_cons, Er, IH | by rewrite IH].
Qed.

Lemma default_filters :
  from_settings Runner.default_scraper_settings
  = Return (mk_ReviewFilters (Some 1) (Some 5) None).
Proof. reflexivity. Qed.

Lemma default_max_reviews :
  int max_str_digits (get_or Runner.default_scraper_settings "max_reviews" (VInt 200))
  = Return 200.
Proof. reflexivity. Qed.

(** X19.  With the scraper settings [load_settings] falls back to
    (at most 200 reviews, ratings 1 to 5, no date bound), a page returns at
    most 200 records, every record has a known rating in 1..5, and the
    bucket counts of the histogram every record holds sum to the number of
    records. *)
Theorem default_settings_page (url : string) (records : list dict) :
  parse_business_page Runner.default_scraper_settings url = Return records ->
  (length records <= 200)%nat
  /\ Forall (fun record => rated_in_range record = true) records
  /\ (forall record, record ∈ records ->
        exists histogram,
          record !! "review_counts_by_rating" = Some (VDict histogram) /\
          bucket_sum histogram = Z.of_nat (length records)).
Proof.
  intros Hp. unfold parse_business_page in Hp.
  apply bind_Return_inv in Hp as (soup & Hs & Hp).
  apply bind_Return_inv in Hp as (business & Hb & Hp). cbv zeta in Hp.
  rewrite default_max_reviews in Hp. cbn [bind] in Hp.
  rewrite default_filters in Hp. cbn [bind] in Hp.
  apply bind_Return_inv in Hp as (kept & Hk & Hp). injection Hp as <-.
  pose proof (kept_reviews_fields _ _ _ _ Hk) as Hdom.
  assert (Forall (fun review => rated_in_range review = true) kept) as Hrated.
  { rewrite (apply_filters_kept _ _ _ Hk), Forall_forall. intros r Hr.
    apply list_elem_of_filter in Hr as [Hpass _].
    apply passes_filters_true in Hpass as [Hrating _].
    unfold _passes_rating_filter in Hrating. simpl in Hrating.
    unfold rated_in_range, known_rating, in_star_range.
    destruct (as_int _) as [rating|]; [|discriminate].
    destruct (Z.ltb_spec rating 1); [discriminate|].
    destruct (Z.ltb_spec 5 rating); [discriminate|].
    apply andb_true_intro. split; apply Z.leb_le; lia. }
  rewrite length_map. split.
  - apply apply_filters_sublist, sublist_length in Hk.
    rewrite length_slice_to in Hk. unfold slice_length in Hk.
    change (0 <=? 200) with true in Hk. cbv iota in Hk. lia.
  - split.
    + apply Forall_fmap. eapply Forall_impl; [exact Hrated|].
      intros review Hr. simpl.
      unfold rated_in_range, known_rating, Py.get in *.
      destruct (review !! "latest_reviewer_rating") as [v|] eqn:Ev; [|discriminate].
      by rewrite (output_record_review_field _ _ _ _ (mk_is_Some _ _ Ev)), Ev.
    + intros record Hin. apply list_elem_of_fmap in Hin as (review & -> & Hin).
      rewrite Forall_forall in Hdom.
      destruct (output_record_business business (_build_rating_histogram kept) review
                  (Hdom _ Hin)) as (_ & _ & Hh).
      eexists. split; [exact Hh|].
      rewrite bucket_sum_count. by apply count_eq_length.
Qed.

(** *** The business strategies over the text of the page *)

Lemma first_some_elem {A B} (f : A -> option B) (xs : list A) (b : B) :
  first_some f xs = Some b -> exists x, x ∈ xs /\ f x = Some b.
Proof.
  induction xs as [|x xs IH]; [discriminate|]. simpl.
  destruct (f x) as [b'|] eqn:Ex.
  - intros [= <-]. exists x. split; [by left | done].
  - intros Hf. destruct (IH Hf) as (x' & Hin & Hx'). exists x'. split; [by right | done].
Qed.

Lemma find_all_strings_accepted (n : Node) (accepts : string -> bool) (text : string) :
  text ∈ Business.find_all_strings n accepts -> accepts text = true.
Proof.
  unfold Business.find_all_strings. rewrite list_elem_of_In, in_flat_map.
  intros (d & _ & Hd). destruct d as [name attrs contents|t]; [by destruct Hd|].
  destruct (accepts t) eqn:Et; [|by destruct Hd].
  destruct Hd as [<-|[]]. done.
Qed.

Lemma dollar_is_no_space (c : ascii) :
  Business.is_dollar c = true -> Str.isspace c = false.
Proof.
  unfold Business.is_dollar, Str.ord. intros Hc%N.eqb_eq.
  rewrite <- (ascii_N_embedding c), Hc. reflexivity.
Qed.

(** A run of dollar signs, alone or in front of a final line feed, strips
    to the run. *)
Lemma strip_dollars (s d r : string) :
  Str.span Business.is_dollar s = (d, r) ->
  Str.is_empty r || String.eqb r Business.line_feed = true ->
  Str.strip s = d /\ all_dollars d = true.
Proof.
  intros Hspan Hr.
  assert (Str.rstrip_by Str.isspace s = d /\ all_dollars d = true) as [Hstrip Hall].
  { revert d Hspan. induction s as [|c s IH]; intros d Hspan.
    - by injection Hspan as <- <-.
    - simpl in Hspan. destruct (Business.is_dollar c) eqn:Ec.
      + destruct (Str.span Business.is_dollar s) as [d' r'] eqn:Es.
        injection Hspan as <- <-. destruct (IH d' eq_refl) as [IHs IHd].
        simpl. rewrite IHs, (dollar_is_no_space _ Ec). simpl. split; [done|].
        unfold all_dollars in *. simpl. by rewrite Ec.
      + injection Hspan as <- <-. split; [|done].
        apply orb_prop in Hr as [Hr|Hr]; [done|].
        apply String.eqb_eq in Hr. by inversion Hr. }
  split; [|done]. unfold Str.strip.
  destruct s as [|c s]; [done|]. simpl in Hspan. simpl Str.lstrip_by.
  destruct (Business.is_dollar c) eqn:Ec.
  - by rewrite (dollar_is_no_space _ Ec).
  - injection Hspan as <- <-.
    apply orb_prop in Hr as [Hr|Hr]; [done|].
    apply String.eqb_eq in Hr. by inversion Hr.
Qed.

Lemma append_cons (c : ascii) (s t : string) : String c s +:+ t = String c (s +:+ t).
Proof. reflexivity. Qed.

Lemma append_empty (s : string) : s +:+ EmptyString = s.
Proof. induction s as [|c s IH]; [done|]. by rewrite append_cons, IH. Qed.

Lemma span_append (p : ascii -> bool) (s d r : string) :
  Str.span p s = (d, r) -> s = d +:+ r.
Proof.
  revert d. induction s as [|c t IH]; intros d Hspan.
  - by injection Hspan as <- <-.
  - simpl in Hspan. destruct (p c).
    + destruct (Str.span p t) as [d' r'].
      injection Hspan as <- <-. rewrite append_cons. f_equal. by apply IH.
    + by injection Hspan as <- <-.
Qed.

(** X20.  A price range [_extract_price_range] returns is a run of one to
    four dollar signs and nothing else, and it is, up to a final line
    feed, a text of the page. *)
Theorem price_range_is_dollars (soup : Node) (price : string) :
  Business._extract_price_range soup = Some price ->
  all_dollars price = true
  /\ (1 <= String.length price <= 4)%nat
  /\ exists text, text ∈ Business.find_all_strings soup Business.only_dollars /\
                  (text = price \/ text = price +:+ Business.line_feed).
Proof.
  unfold Business._extract_price_range. intros Hp.
  apply first_some_elem in Hp as (text & Hin & Hp). cbv zeta in Hp.
  pose proof (find_all_strings_accepted _ _ _ Hin) as Hacc.
  unfold Business.only_dollars in Hacc.
  destruct (Str.span Business.is_dollar text) as [d r] eqn:Espan.
  apply andb_prop in Hacc as [_ Hr].
  destruct (strip_dollars _ _ _ Espan Hr) as [Hstrip Hall].
  rewrite Hstrip in Hp.
  destruct (Nat.leb_spec 1 (String.length d)); [|discriminate].
  destruct (Nat.leb_spec (String.length d) 4); [|discriminate].
  injection Hp as <-. split; [done|]. split; [lia|].
  exists text. split; [done|].
  rewrite (span_append _ _ _ _ Espan).
  apply orb_prop in Hr as [Hr|Hr].
  - left. destruct r; [|discriminate]. apply append_empty.
  - right. apply String.eqb_eq in Hr. by rewrite Hr.
Qed.

(** X21.  [_extract_total_reviews_text] returns nothing exactly when no
    text of the page mentions reviews and holds a digit; otherwise it
    returns the stripped text of that kind that stands first, in document
    order, among the shortest ones. *)
Theorem total_reviews_text_first_shortest (soup : Node) :
  (Business._extract_total_reviews_text soup = None <-> total_reviews_candidates soup = [])
  /\ (forall text, Business._extract_total_reviews_text soup = Some text ->
        first_shortest text (total_reviews_candidates soup)
        /\ Str.matches Str.re_digits text = true
        /\ exists el, el ∈ Business.find_all_strings soup (Str.matches Business.re_reviews)
                      /\ Str.matches Business.re_reviews el = true
                      /\ text = Str.strip el).
Proof.
  unfold Business._extract_total_reviews_text. cbv zeta.
  fold (total_reviews_candidates soup). split.
  - split.
    + intros Hh. apply sort_by_len_nil. by destruct (sort_by_len (total_reviews_candidates soup)).
    + by intros ->.
  - intros text Ht. apply head_sort_by_len in Ht. split; [done|].
    assert (text ∈ total_reviews_candidates soup) as Hin.
    { destruct Ht as (l1 & l2 & -> & _). apply elem_of_app. right. by left. }
    unfold total_reviews_candidates in Hin. apply list_elem_of_filter in Hin as [Hd Hin].
    split; [done|]. apply list_elem_of_fmap in Hin as (el & -> & Hel).
    exists el. split; [done|]. split; [|done]. by eapply find_all_strings_accepted.
Qed.

(** *** The runner *)

Lemma lstrip_head (s : string) :
  match Str.lstrip_by Str.isspace s with
  | EmptyString => True
  | String c _ => Str.isspace c = false
  end.
Proof.
  induction s as [|c s IH]; [done|]. simpl.
  by destruct (Str.isspace c) eqn:Ec.
Qed.

Lemma rstrip_idempotent (s : string) :
  Str.rstrip_by Str.isspace (Str.rstrip_by Str.isspace s) = Str.rstrip_by Str.isspace s.
Proof.
  induction s as [|c s IH]; [done|]. simpl.
  destruct (Str.isspace c && Str.is_empty (Str.rstrip_by Str.isspace s)) eqn:Ec; [done|].
  simpl. by rewrite IH, Ec.
Qed.

Lemma strip_idempotent (s : string) : Str.strip (Str.strip s) = Str.strip s.
Proof.
  unfold Str.strip. pose proof (lstrip_head s) as Hh.
  destruct (Str.lstrip_by Str.isspace s) as [|c t]; [done|].
  assert (Str.rstrip_by Str.isspace (String c t)
          = String c (Str.rstrip_by Str.isspace t)) as Hr by (simpl; by rewrite Hh).
  rewrite Hr. simpl Str.lstrip_by. rewrite Hh. rewrite <- Hr. apply rstrip_idempotent.
Qed.

Lemma load_input_urls_acc (lines acc : list string) :
  foldl (fun (urls : list string) line =>
           let line := Str.strip line in
           if negb (Str.truthy line) || Str.startswith "#" line then urls
           else urls ++ [line])
        acc lines
  = acc ++ filter (fun line => Str.truthy line && negb (Str.startswith "#" line) = true)
                  (map Str.strip lines).
Proof.
  revert acc. induction lines as [|line lines IH]; intros acc.
  - simpl. by rewrite app_nil_r.
  - cbn [foldl map]. rewrite IH, filter_cons. cbv zeta.
    destruct (Str.truthy (Str.strip line)) eqn:Et;
      destruct (Str.startswith "#" (Str.strip line)) eqn:Es;
      cbn [negb orb andb]; case_decide; try done.
    by rewrite <- app_assoc.
Qed.

(** X22.  [load_input_urls] returns no URL when the input file is missing
    or reading it raises an [OSError]; an exception of the reading that
    is no [OSError], as the one a file that is not UTF-8 gives, is raised
    to the caller.  When the file is read, it returns the stripped lines
    that are not empty and do not start with [#], in the order of the
    file; every URL it returns is non-empty, free of surrounding white
    space and no comment. *)
Theorem load_input_urls_lines (read : Runner.Read) (lines : list string) (e : exn) :
  Runner.load_input_urls false read = Return []
  /\ Runner.load_input_urls true Runner.ReadOSError = Return []
  /\ Runner.load_input_urls true (Runner.ReadRaises e)
     = (if Runner.os_error e then Return [] else Raise e)
  /\ Runner.load_input_urls true (Runner.ReadLines lines)
     = Return (filter (fun line => Str.truthy line && negb (Str.startswith "#" line) = true)
                      (map Str.strip lines))
  /\ Forall (fun url => Str.truthy url = true /\
                        Str.startswith "#" url = false /\
                        Str.strip url = url)
            (filter (fun line => Str.truthy line && negb (Str.startswith "#" line) = true)
                    (map Str.strip lines)).
Proof.
  split; [done|]. split; [done|]. split; [done|]. split.
  - unfold Runner.load_input_urls. simpl negb. cbv iota. by rewrite load_input_urls_acc.
  - rewrite Forall_forall. intros url Hin.
    apply list_elem_of_filter in Hin as [Hok Hin].
    apply list_elem_of_fmap in Hin as (line & -> & _).
    apply andb_prop in Hok as [Ht Hs]. apply negb_true_iff in Hs.
    split; [done|]. split; [done|]. apply strip_idempotent.
Qed.

Lemma collect_records_acc (settings : dict) (urls : list string) (acc : list dict) :
  foldl (fun (all_records : list dict) url =>
           match parse_business_page settings url with
           | Raise _ => all_records
           | Return records =>
               match records with
               | [] => all_records
               | _ :: _ => all_records ++ records
               end
           end)
        acc urls
  = acc ++ flat_map (fun url => default [] (returned (parse_business_page settings url))) urls.
Proof.
  revert acc. induction urls as [|url urls IH]; intros acc; simpl.
  - by rewrite app_nil_r.
  - rewrite IH. destruct (parse_business_page settings url) as [[|r rs]|e]; simpl.
    + done.
    + by rewrite <- app_assoc.
    + done.
Qed.

(** X23.  The loop of [main] collects the records of the pages that
    return, in the order of the URLs and, within a page, in the order of
    its records; a page that raises is left out and the loop goes on with
    the next URL. *)
Theorem collect_records_in_url_order (settings : dict) (urls before after : list string)
    (url : string) :
  Runner.collect_records settings urls
  = flat_map (fun url => default [] (returned (parse_business_page settings url))) urls
  /\ Runner.collect_records settings (before ++ after)
     = Runner.collect_records settings before ++ Runner.collect_records settings after
  /\ (forall e, parse_business_page settings url = Raise e ->
        Runner.collect_records settings (before ++ url :: after)
        = Runner.collect_records settings before ++ Runner.collect_records settings after)
  /\ (forall records, parse_business_page settings url = Return records ->
        Runner.collect_records settings (before ++ url :: after)
        = Runner.collect_records settings before ++ records
          ++ Runner.collect_records settings after).
Proof.
  assert (forall l, Runner.collect_records settings l
                    = flat_map (fun url => default [] (returned (parse_business_page settings url))) l)
    as Heq by (intros l; unfold Runner.collect_records; by rewrite collect_records_acc).
  rewrite !Heq, !flat_map_app. split; [done|]. split; [done|].
  simpl. split.
  - by intros e ->.
  - by intros records ->.
Qed.
End Coverage.

(** ** The further properties on the sample pages *)

Section FurtherSamples.
#[local] Existing Instance Fixture.externals.

(** Closed side conditions: the code is run on the sample. *)
Ltac evaluate :=
  lazymatch goal with
  | |- fetch_soup _ = _ => reflexivity
  | |- apply_filters _ _ = Return (kept_by_rating _ _) =>
      unfold kept_by_rating; apply apply_filters_no_date; reflexivity
  | |- apply_filters _ _ = _ => apply apply_filters_no_date; reflexivity
  | |- @eq (Exc _) _ _ => vm_compute; reflexivity
  | |- @eq (list _) _ _ => vm_compute; reflexivity
  | |- @eq (option _) _ _ => vm_compute; reflexivity
  | |- @eq value _ _ => vm_compute; reflexivity
  | |- @eq Z _ _ => vm_compute; reflexivity
  | |- @eq nat _ _ => vm_compute; reflexivity
  | |- @eq bool _ _ => vm_compute; reflexivity
  | |- Z.le _ _ => lia
  | |- Z.lt _ _ => lia
  | |- _ /\ _ => lia
  | |- _ => idtac
  end.

Lemma Forall_forallb {A} (p : A -> bool) (l : list A) :
  forallb p l = true -> Forall (fun x => p x = true) l.
Proof.
  induction l as [|x l IH]; [constructor|]. simpl.
  intros [Hx Hl]%andb_prop. constructor; [done | by apply IH].
Qed.

(** Of the two reviews of the sample page, rated 5 and 2, the bound 3
    keeps one; filtering it again keeps it. *)
Lemma apply_filters_idempotent_witness :
  length (kept_by_rating Fixture.filters_min_3 (_parse_reviews Sample.page_two)) = 1%nat
  /\ apply_filters (kept_by_rating Fixture.filters_min_3 (_parse_reviews Sample.page_two))
                   Fixture.filters_min_3
     = Return (kept_by_rating Fixture.filters_min_3 (_parse_reviews Sample.page_two)).
Proof.
  split; [evaluate|].
  apply (apply_filters_idempotent (_parse_reviews Sample.page_two)). evaluate.
Defined.

Lemma apply_filters_order_preserving_witness :
  apply_filters (_parse_reviews Sample.page_two) Fixture.filters_min_3
  = Return (kept_by_rating Fixture.filters_min_3 (_parse_reviews Sample.page_two))
  /\ sublist (kept_by_rating Fixture.filters_min_3 (_parse_reviews Sample.page_two))
             (_parse_reviews Sample.page_two)
  /\ (length (kept_by_rating Fixture.filters_min_3 (_parse_reviews Sample.page_two)) <= 2)%nat.
Proof.
  assert (apply_filters (_parse_reviews Sample.page_two) Fixture.filters_min_3
          = Return (kept_by_rating Fixture.filters_min_3 (_parse_reviews Sample.page_two)))
    as Hk by evaluate.
  split; [exact Hk|].
  destruct (apply_filters_order_preserving _ _ _ Hk) as (Hsub & Hlen & _).
  split; [exact Hsub|].
  replace 2%nat with (length (_parse_reviews Sample.page_two)) by evaluate. exact Hlen.
Defined.

(** A [from_date] that is no date leaves the date rule off: a dated review
    and an undated one both pass. *)
Lemma unusable_from_date_disables_date_rule_witness :
  from_settings Fixture.settings_from_unparseable = Return (mk_ReviewFilters None None None)
  /\ raised (parse_review_date (str (Py.get Fixture.settings_from_unparseable "from_date")))
     = true
  /\ _passes_date_filter Sample.dated_utc (mk_ReviewFilters None None None) = Return true
  /\ _passes_date_filter Sample.unrated (mk_ReviewFilters None None None) = Return true.
Proof.
  assert (from_settings Fixture.settings_from_unparseable
          = Return (mk_ReviewFilters None None None)) as Hf by evaluate.
  assert (raised (parse_review_date (str (Py.get Fixture.settings_from_unparseable "from_date")))
          = true) as Hr by evaluate.
  split; [exact Hf|]. split; [exact Hr|].
  split; exact (unusable_from_date_disables_date_rule _ _ Hf (or_intror Hr) _).
Defined.

(** Ratings from 4 to 2: nothing of the sample page is kept. *)
Lemma empty_rating_range_keeps_nothing_witness :
  length (_parse_reviews Sample.page_two) = 2%nat
  /\ apply_filters (_parse_reviews Sample.page_two) Fixture.filters_4_to_2 = Return [].
Proof.
  split; [evaluate|].
  apply (empty_rating_range_keeps_nothing _ Fixture.filters_4_to_2 4 2); [done | done | lia].
Defined.

(** Settings whose [from_date] is no date keep a review without a rating
    and one rated ten. *)
Lemma no_constraint_keeps_everything_witness :
  raised (parse_review_date (str (Py.get Fixture.settings_from_unparseable "from_date")))
  = true
  /\ exists filters,
       from_settings Fixture.settings_from_unparseable = Return filters /\
       apply_filters [Sample.unrated; Sample.rated_ten] filters
       = Return [Sample.unrated; Sample.rated_ten].
Proof.
  assert (raised (parse_review_date (str (Py.get Fixture.settings_from_unparseable "from_date")))
          = true) as Hr by evaluate.
  split; [exact Hr|].
  destruct (no_constraint_keeps_everything Fixture.settings_from_unparseable)
    as (filters & Hf & Hall); [evaluate | evaluate | by right |].
  exists filters. split; [exact Hf | apply Hall].
Defined.

(** The answered review extracts; its dates are rendered in ISO form. *)
Lemma review_dates_are_iso_witness :
  (fun review => (review !! "review_date", review !! "response_date"))
    <$> returned (_parse_single_review Fixture.answered_review)
  = Some (Some (VStr "2023-12-24T00:00:00"), Some (VStr "2024-01-05T00:00:00"))
  /\ match _parse_single_review Fixture.answered_review with
     | Return review =>
         match _extract_review_date_raw Fixture.answered_review with
         | None => review !! "review_date" = Some VNone
         | Some raw =>
             exists d, parse_review_date raw = Return d /\
                       review !! "review_date" = Some (VStr (isoformat d))
         end
     | Raise _ => True
     end.
Proof.
  split; [evaluate|].
  destruct (_parse_single_review Fixture.answered_review) as [review|e] eqn:E; [|exact I].
  exact (proj1 (review_dates_are_iso Fixture.answered_review review E)).
Defined.

(** The page whose only review is dated with no date returns no record. *)
Lemma page_without_extractable_review_witness :
  length (_locate_review_containers Fixture.page_undated) = 1%nat
  /\ parse_business_page Sample.settings_empty Fixture.url_undated = Return [].
Proof.
  split; [evaluate|].
  apply (page_without_extractable_review Sample.settings_empty Fixture.url_undated
           Fixture.page_undated (Fixture.business Fixture.url_undated) 200
           (mk_ReviewFilters None None None)); evaluate.
  apply Forall_forallb. evaluate.
Defined.

(** The limit -1 on the page with two reviews: at most one record. *)
Lemma record_count_bounds_witness :
  raised (parse_business_page Sample.settings_negative Sample.url_two) = false
  /\ length (_locate_review_containers Sample.page_two) = 2%nat
  /\ match parse_business_page Sample.settings_negative Sample.url_two with
     | Return records =>
         (length records
          <= length (_locate_review_containers Sample.page_two) - Z.to_nat (- -1))%nat
     | Raise _ => True
     end.
Proof.
  split; [evaluate|]. split; [evaluate|].
  destruct (parse_business_page Sample.settings_negative Sample.url_two)
    as [records|e] eqn:E; [|exact I].
  assert (fetch_soup Sample.url_two = Return Sample.page_two) as Hs by evaluate.
  assert (int max_str_digits (get_or Sample.settings_negative "max_reviews" (VInt 200))
          = Return (-1)) as Hn by evaluate.
  destruct (record_count_bounds Sample.settings_negative Sample.url_two Sample.page_two
              (-1) records Hs Hn E) as (_ & _ & _ & _ & Hneg).
  apply Hneg. lia.
Defined.

(** The page with the answered review under empty settings: two records,
    each with the 23 keys and the review's own date. *)
Lemma output_records_keep_review_fields_witness :
  exists records,
    parse_business_page Sample.settings_empty Fixture.url_answered = Return records /\
    Forall2 (fun record review =>
               dom record = list_to_set (review_fields ++ business_fields) /\
               record !! "review_date" = review !! "review_date")
            records
            (kept_by_rating (mk_ReviewFilters None None None)
                            (slice_to (_parse_reviews Fixture.page_answered) 200)).
Proof.
  destruct (output_records_keep_review_fields Sample.settings_empty Fixture.url_answered
              Fixture.page_answered (Fixture.business Fixture.url_answered) 200
              (mk_ReviewFilters None None None)
              (kept_by_rating (mk_ReviewFilters None None None)
                              (slice_to (_parse_reviews Fixture.page_answered) 200)))
    as (records & Hp & Hall); evaluate.
  exists records. split; [exact Hp|].
  eapply Forall2_impl; [exact Hall|].
  intros record review [Hdom Hkeep]. split; [exact Hdom|].
  apply Hkeep. apply (bool_decide_unpack _). vm_compute. exact I.
Defined.

(** The reviews of the sample page, taken twice: two reviews of five
    stars. *)
Lemma histogram_additive_witness :
  bucket (_build_rating_histogram (_parse_reviews Sample.page_two)) 5 = 1
  /\ bucket (_build_rating_histogram
               (_parse_reviews Sample.page_two ++ _parse_reviews Sample.page_two)) 5
     = 1 + 1.
Proof.
  assert (bucket (_build_rating_histogram (_parse_reviews Sample.page_two)) 5 = 1)
    as Hone by evaluate.
  split; [exact Hone|].
  rewrite (histogram_additive (_parse_reviews Sample.page_two)
             (_parse_reviews Sample.page_two) 5) by lia.
  by rewrite Hone.
Defined.

(** The reviews of the sample page in reverse order give the same
    histogram. *)
Lemma histogram_order_independent_witness :
  _build_rating_histogram (reverse (_parse_reviews Sample.page_two))
  = _build_rating_histogram (_parse_reviews Sample.page_two).
Proof. apply histogram_order_independent, reverse_Permutation. Defined.

(** Under the bound 3 the bucket of two stars is empty, while the page
    holds a review of two stars. *)
Lemma filtered_histogram_witness :
  _build_rating_histogram (_parse_reviews Sample.page_two) !! stars_key 2 = Some (VInt 1)
  /\ _build_rating_histogram
       (kept_by_rating Fixture.filters_min_3 (_parse_reviews Sample.page_two)) !! stars_key 2
     = Some (VInt 0).
Proof.
  split; [evaluate|].
  assert (apply_filters (_parse_reviews Sample.page_two) Fixture.filters_min_3
          = Return (kept_by_rating Fixture.filters_min_3 (_parse_reviews Sample.page_two)))
    as Hk by evaluate.
  destruct (filtered_histogram _ _ _ 2 Hk) as [Hout _]; [lia|].
  apply Hout. left. exists 3. split; [done | lia].
Defined.

(** The page of three containers under the default settings. *)
Lemma default_settings_page_witness :
  length <$> returned (parse_business_page Runner.default_scraper_settings Sample.url_three)
  = Some 2%nat
  /\ match parse_business_page Runner.default_scraper_settings Sample.url_three with
     | Return records =>
         (length records <= 200)%nat
         /\ Forall (fun record => rated_in_range record = true) records
     | Raise _ => True
     end.
Proof.
  split; [evaluate|].
  destruct (parse_business_page Runner.default_scraper_settings Sample.url_three)
    as [records|e] eqn:E; [|exact I].
  destruct (default_settings_page Sample.url_three records E) as (Hlen & Hrated & _).
  by split.
Defined.

(** The head of the sample page: five dollar signs are too many, the two
    in front of a line feed are taken. *)
Lemma price_range_is_dollars_witness :
  Business.find_all_strings Fixture.header Business.only_dollars
  = ["$$$$$"; "$$" +:+ Business.line_feed; "$"]
  /\ Business._extract_price_range Fixture.header = Some "$$"
  /\ all_dollars "$$" = true
  /\ (1 <= String.length "$$" <= 4)%nat.
Proof.
  split; [evaluate|].
  assert (Business._extract_price_range Fixture.header = Some "$$") as Hp by evaluate.
  split; [exact Hp|].
  destruct (price_range_is_dollars Fixture.header "$$" Hp) as (Hall & Hlen & _).
  by split.
Defined.

(** A URL that cannot be fetched: the error of the fetch is the error of
    the call. *)
Lemma parse_business_page_errors_witness :
  parse_business_page Sample.settings_empty Fixture.url_missing = Raise RequestException
  /\ fetch_soup Fixture.url_missing = Raise RequestException.
Proof.
  assert (parse_business_page Sample.settings_empty Fixture.url_missing
          = Raise RequestException) as Hp by evaluate.
  split; [exact Hp|].
  destruct (parse_business_page_errors _ _ _ Hp) as [Hfetch | (soup & Hs & _)];
    [exact Hfetch | discriminate Hs].
Defined.

End FurtherSamples.
